(** * Furniture manufacturing optimisation (task4.py)

    A shallow embedding of [optimize_manufacturing_resources] and of the
    module-level script that consumes its result.  Python integers are [Z],
    Python floats are IEEE binary64 values (Rocq's primitive [float]),
    dictionaries are insertion-ordered association lists, and every
    operation that can raise in Python returns in an error monad. *)

From Stdlib Require Import ZArith List String Ascii Bool Lia.
From Stdlib Require Import Floats DecimalString QArith Qpower Lqa.
Import ListNotations.

Local Open Scope string_scope.
Local Open Scope Z_scope.

(** ** Python values, exceptions and the operations the program uses *)

Module Py.

Inductive exn : Set :=
| KeyError
| TypeError
| ValueError
| OverflowError
| ZeroDivisionError
| AttributeError
| PulpError.

Inductive result (A : Type) : Type :=
| Ok (a : A)
| Raise (e : exn).

Arguments Ok {A} a.
Arguments Raise {A} e.

Definition bind {A B : Type} (m : result A) (k : A -> result B) : result B :=
  match m with
  | Ok a => k a
  | Raise e => Raise e
  end.

(** A [dict] keeps its keys in insertion order, as Python's does. *)
Definition dict (A : Type) : Type := list (string * A).

#[local] Unset Elimination Schemes.
Inductive value : Type :=
| VNone
| VInt (n : Z)
| VFloat (x : float)
| VStr (s : string)
| VList (l : list value)
| VDict (d : dict value).
#[local] Set Elimination Schemes.

Fixpoint lookup {A : Type} (k : string) (d : dict A) : option A :=
  match d with
  | [] => None
  | (k', v) :: d' => if String.eqb k' k then Some v else lookup k d'
  end.

Definition keys {A : Type} (d : dict A) : list string := map fst d.

(** [d[k]] on a dictionary literal of the program. *)
Definition item {A : Type} (d : dict A) (k : string) : result A :=
  match lookup k d with
  | Some v => Ok v
  | None => Raise KeyError
  end.

(** [obj[k]] with a string key on an arbitrary value: only a dict can be
    subscripted that way; a str or a list wants integer indices and None
    and numbers are not subscriptable, all of which is a TypeError. *)
Definition getitem (obj : value) (k : string) : result value :=
  match obj with
  | VDict d => item d k
  | _ => Raise TypeError
  end.

(** [int(x)] on a float: truncation towards zero; infinities and NaN raise. *)
Definition int_of_float (x : float) : result Z :=
  match Prim2SF x with
  | S754_zero _ => Ok 0
  | S754_finite s m e =>
      let mag := Z.shiftl (Z.pos m) e in
      Ok (if s then - mag else mag)
  | S754_infinity _ => Raise OverflowError
  | S754_nan => Raise ValueError
  end.

Definition SF_of_Z (z : Z) : spec_float :=
  match z with
  | Z0 => S754_zero false
  | Z.pos p => S754_finite false p 0
  | Z.neg p => S754_finite true p 0
  end.

(** [int(v)] where [v] is a float or None. *)
Definition int_ (v : option float) : result Z :=
  match v with
  | Some x => int_of_float x
  | None => Raise TypeError
  end.

(** [float(n)] on an int: the nearest binary64 value, ties to even. *)
Definition float_of_int (n : Z) : result float :=
  match binary_normalize prec emax n 0 false with
  | S754_infinity _ => Raise OverflowError
  | f => Ok (SF2Prim f)
  end.

(** The binary64 value of a small integer literal. *)
Definition float_of_Z (n : Z) : float :=
  SF2Prim (binary_normalize prec emax n 0 false).

(** [a / b] on two ints: the correctly rounded quotient, as a float. *)
Definition int_truediv (a b : Z) : result float :=
  if b =? 0 then Raise ZeroDivisionError
  else match SFdiv prec emax (SF_of_Z a) (SF_of_Z b) with
       | S754_infinity _ => Raise OverflowError
       | q => Ok (SF2Prim q)
       end.

(** The exact value of a float when it is a finite integer. *)
Definition integral (x : float) : option Z :=
  match Prim2SF x with
  | S754_zero _ => Some 0
  | S754_finite s m e =>
      if (0 <=? e) || (Z.pos m mod 2 ^ (- e) =? 0)
      then Some (let mag := Z.shiftl (Z.pos m) e in if s then - mag else mag)
      else None
  | _ => None
  end.

(** The exact value of a finite float, as a rational. *)
Definition to_Q (x : float) : option Q :=
  match Prim2SF x with
  | S754_zero _ => Some 0%Q
  | S754_finite s m e =>
      Some (inject_Z (if s then Z.neg m else Z.pos m) * Qpower 2 e)%Q
  | _ => None
  end.

End Py.

Import Py.

Declare Scope py_scope.
Delimit Scope py_scope with py.
Notation "x <- m ;; k" := (bind m (fun x => k))
  (at level 61, m at next level, right associativity) : py_scope.
Local Open Scope py_scope.

(** ** The part of PuLP the program relies on

    PuLP is an external library: the records below hold what the program
    puts into an [LpProblem] and what [prob.solve()] leaves behind. *)

Module Pulp.

Inductive category : Set := LpContinuous | LpInteger | LpBinary.

Record LpVariable : Type := mkVar {
  var_name : string;
  lowBound : option Z;
  upBound : option Z;
  cat : category
}.

(** A linear expression: coefficients by variable, in insertion order,
    and a constant. *)
Record LpAffineExpression : Type := mkExpr {
  terms : list (LpVariable * Z);
  constant : Z
}.

Inductive sense : Set := LpConstraintLE | LpConstraintGE | LpConstraintEQ.

(** [expr <= rhs], [expr >= rhs] or [expr == rhs]. *)
Record LpConstraint : Type := mkConstraint {
  expr : LpAffineExpression;
  rel : sense;
  rhs : Z
}.

Inductive direction : Set := LpMinimize | LpMaximize.

Record LpProblem : Type := mkProblem {
  prob_name : string;
  direction_of : direction;
  objective : option (LpAffineExpression * string);
  constraints : dict LpConstraint
}.

(** [c * x] for an int [c] and a variable [x]. *)
Definition scale (c : Z) (x : LpVariable) : LpAffineExpression :=
  mkExpr [(x, c)] 0.

(** The expression consisting of one variable. *)
Definition of_var (x : LpVariable) : LpAffineExpression := scale 1 x.

Fixpoint add_term (x : LpVariable) (c : Z) (ts : list (LpVariable * Z))
  : list (LpVariable * Z) :=
  match ts with
  | [] => [(x, c)]
  | (y, d) :: ts' =>
      if String.eqb (var_name y) (var_name x) then (y, d + c) :: ts'
      else (y, d) :: add_term x c ts'
  end.

(** [e1 + e2]: the coefficients of [e2] are added into those of [e1]. *)
Definition plus (e1 e2 : LpAffineExpression) : LpAffineExpression :=
  mkExpr (fold_left (fun ts t => add_term (fst t) (snd t) ts) (terms e2) (terms e1))
         (constant e1 + constant e2).

Definition le (e : LpAffineExpression) (b : Z) : LpConstraint :=
  mkConstraint e LpConstraintLE b.

Definition ge (e : LpAffineExpression) (b : Z) : LpConstraint :=
  mkConstraint e LpConstraintGE b.

(** [prob += expr, name] sets the objective. *)
Definition set_objective (p : LpProblem) (e : LpAffineExpression) (n : string)
  : LpProblem :=
  mkProblem (prob_name p) (direction_of p) (Some (e, n)) (constraints p).

(** [prob += constraint, name] appends a constraint; PuLP refuses a name
    that is already taken. *)
Definition add_constraint (p : LpProblem) (c : LpConstraint) (n : string)
  : result LpProblem :=
  match lookup n (constraints p) with
  | Some _ => Raise PulpError
  | None =>
      Ok (mkProblem (prob_name p) (direction_of p) (objective p)
                    (constraints p ++ [(n, c)])%list)
  end.

(** The status codes of [pulp.constants] and their names, [pulp.LpStatus]. *)
Inductive status : Set :=
| LpStatusNotSolved
| LpStatusOptimal
| LpStatusInfeasible
| LpStatusUnbounded
| LpStatusUndefined.

Definition LpStatus (s : status) : string :=
  match s with
  | LpStatusNotSolved => "Not Solved"
  | LpStatusOptimal => "Optimal"
  | LpStatusInfeasible => "Infeasible"
  | LpStatusUnbounded => "Unbounded"
  | LpStatusUndefined => "Undefined"
  end.

(** What [prob.solve()] records: the status, a value per variable and a
    dual value per constraint (either may be left at None). *)
Record Solution : Type := mkSolution {
  sol_status : status;
  varValue : string -> option float;
  pi : string -> option float
}.

(** [x.value()]: a float, or None. *)
Definition var_value (s : Solution) (x : LpVariable) : option float :=
  varValue s (var_name x).

(** [pulp.value(e)]: the constant, to which each coefficient times the
    value of its variable is added in turn; None as soon as a variable has
    no value. *)
Fixpoint sum_terms (s : Solution) (ts : list (LpVariable * Z)) (acc : float)
  : value :=
  match ts with
  | [] => VFloat acc
  | (x, c) :: ts' =>
      match varValue s (var_name x) with
      | None => VNone
      | Some v => sum_terms s ts' (acc + v * float_of_Z c)%float
      end
  end.

Definition expr_value (s : Solution) (e : LpAffineExpression) : value :=
  match terms e with
  | [] => VInt (constant e)
  | _ => sum_terms s (terms e) (float_of_Z (constant e))
  end.

End Pulp.

Import Pulp.

(** ** The program: [optimize_manufacturing_resources] *)

Definition tables : LpVariable := mkVar "Tables" (Some 0) None LpInteger.
Definition chairs : LpVariable := mkVar "Chairs" (Some 0) None LpInteger.

Definition table_data : dict Z :=
  [("labor_hours", 8); ("wood", 30); ("machine_time", 4); ("profit", 220)].

Definition chair_data : dict Z :=
  [("labor_hours", 5); ("wood", 10); ("machine_time", 2); ("profit", 80)].

Definition available_resources : dict Z :=
  [("labor_hours", 400); ("wood", 800); ("machine_time", 150)].

Definition min_tables : Z := 10.
Definition min_chairs : Z := 20.

(** [table_data[k] * tables + chair_data[k] * chairs], the shape of the
    objective and of the left-hand side of each resource constraint. *)
Definition per_unit (k : string) : result LpAffineExpression :=
  a <- item table_data k;;
  b <- item chair_data k;;
  Ok (plus (scale a tables) (scale b chairs)).

(** [... <= available_resources[k]]. *)
Definition resource_constraint (k : string) : result LpConstraint :=
  e <- per_unit k;;
  b <- item available_resources k;;
  Ok (le e b).

(** Lines 12 to 56: the problem as it stands when [prob.solve()] is called. *)
Definition prob : result LpProblem :=
  let p := mkProblem "Furniture_Manufacturing_Optimization" LpMaximize None [] in
  o <- per_unit "profit";;
  let p := set_objective p o "Total_Profit" in
  c <- resource_constraint "labor_hours";;
  p <- add_constraint p c "Labor_Constraint";;
  c <- resource_constraint "wood";;
  p <- add_constraint p c "Wood_Constraint";;
  c <- resource_constraint "machine_time";;
  p <- add_constraint p c "Machine_Time_Constraint";;
  p <- add_constraint p (ge (of_var tables) min_tables) "Minimum_Tables";;
  add_constraint p (ge (of_var chairs) min_chairs) "Minimum_Chairs".

(** [table_data[k] * optimal_tables + chair_data[k] * optimal_chairs]. *)
Definition used (k : string) (optimal_tables optimal_chairs : Z) : result Z :=
  a <- item table_data k;;
  b <- item chair_data k;;
  Ok (a * optimal_tables + b * optimal_chairs).

(** [(u / available_resources[k]) * 100]. *)
Definition utilization (u : Z) (k : string) : result float :=
  l <- item available_resources k;;
  q <- int_truediv u l;;
  Ok (q * 100)%float.

(** The float that the literal [0.01] denotes. *)
Definition tolerance : float := 0x1.47ae147ae147bp-7%float.

(** [abs(utilized_pct - 100) < 0.01]. *)
Definition approximately_full (utilized_pct : float) : bool :=
  (abs (utilized_pct - 100) <? tolerance)%float.

Definition opt_float (v : option float) : value :=
  match v with
  | Some x => VFloat x
  | None => VNone
  end.

(** [pulp.value(prob.objective)]. *)
Definition objective_value (s : Solution) (p : LpProblem) : result value :=
  match objective p with
  | Some (e, _) => Ok (expr_value s e)
  | None => Raise AttributeError
  end.

Section Program.

(** What [prob.solve()] leaves in the problem, its variables and its
    constraints; the solver itself is external. *)
Variable solve : LpProblem -> Solution.

Definition optimize_manufacturing_resources : result value :=
  prob <- prob;;
  let sol := solve prob in
  if negb (String.eqb (LpStatus (sol_status sol)) "Optimal") then
    Ok (VStr "No optimal solution found.")
  else
    optimal_tables <- int_ (var_value sol tables);;
    optimal_chairs <- int_ (var_value sol chairs);;
    optimal_profit <- objective_value sol prob;;
    labor_used <- used "labor_hours" optimal_tables optimal_chairs;;
    wood_used <- used "wood" optimal_tables optimal_chairs;;
    machine_time_used <- used "machine_time" optimal_tables optimal_chairs;;
    labor_pct <- utilization labor_used "labor_hours";;
    wood_pct <- utilization wood_used "wood";;
    machine_time_pct <- utilization machine_time_used "machine_time";;
    let resource_utilization : dict float :=
      [("labor_hours", labor_pct); ("wood", wood_pct);
       ("machine_time", machine_time_pct)] in
    let binding_constraints : list string :=
      map fst (filter (fun ru => approximately_full (snd ru)) resource_utilization) in
    let shadow_prices : dict value :=
      map (fun nc => (fst nc, opt_float (pi sol (fst nc)))) (constraints prob) in
    Ok (VDict
      [("optimal_production",
        VDict [("tables", VInt optimal_tables); ("chairs", VInt optimal_chairs)]);
       ("optimal_profit", optimal_profit);
       ("resource_usage",
        VDict [("labor_hours", VInt labor_used); ("wood", VInt wood_used);
               ("machine_time", VInt machine_time_used)]);
       ("resource_utilization",
        VDict (map (fun ru => (fst ru, VFloat (snd ru))) resource_utilization));
       ("binding_constraints", VList (map VStr binding_constraints));
       ("shadow_prices", VDict shadow_prices)]).

End Program.

(** ** What an optimal solve means

    The solver is external; the program relies on it through [prob.solve()]
    alone.  A status of Optimal promises an assignment of integers to the
    (integer) variables that satisfies every bound and constraint and
    maximises the objective, reported variable by variable as the float of
    that integer. *)

Module LP.

Definition assignment : Type := string -> Z.

Definition eval (a : assignment) (e : LpAffineExpression) : Z :=
  fold_right (fun t acc => snd t * a (var_name (fst t)) + acc) (constant e) (terms e).

Definition holds (a : assignment) (c : LpConstraint) : bool :=
  match rel c with
  | LpConstraintLE => eval a (expr c) <=? rhs c
  | LpConstraintGE => rhs c <=? eval a (expr c)
  | LpConstraintEQ => eval a (expr c) =? rhs c
  end.

Definition within_bounds (a : assignment) (x : LpVariable) : bool :=
  match lowBound x with Some l => l <=? a (var_name x) | None => true end
  && match upBound x with Some u => a (var_name x) <=? u | None => true end.

(** Every variable the problem mentions, in its objective or a constraint. *)
Definition variables (p : LpProblem) : list LpVariable :=
  (match objective p with Some (e, _) => map fst (terms e) | None => [] end
   ++ flat_map (fun nc => map fst (terms (expr (snd nc)))) (constraints p))%list.

Definition feasible (p : LpProblem) (a : assignment) : bool :=
  forallb (within_bounds a) (variables p)
  && forallb (fun nc => holds a (snd nc)) (constraints p).

Definition objective_at (p : LpProblem) (a : assignment) : Z :=
  match objective p with
  | Some (e, _) => eval a e
  | None => 0
  end.

Definition optimum (p : LpProblem) (a : assignment) : Prop :=
  feasible p a = true /\
  forall a', feasible p a' = true ->
    match direction_of p with
    | LpMaximize => objective_at p a' <= objective_at p a
    | LpMinimize => objective_at p a <= objective_at p a'
    end.

(** The solution carries the assignment: each variable's value is the
    float of its integer. *)
Definition reports (s : Solution) (p : LpProblem) (a : assignment) : Prop :=
  Forall (fun x => varValue s (var_name x) = Some (float_of_Z (a (var_name x))))
         (variables p).

End LP.

Import LP.

(** The solve of the program's problem ended with status Optimal and an
    optimum reported. *)
Definition optimal_solve (solve : LpProblem -> Solution) : Prop :=
  forall p, prob = Ok p ->
    sol_status (solve p) = LpStatusOptimal /\
    exists a, optimum p a /\ reports (solve p) p a.

(** The problem of lines 12 to 56, written out. *)
Definition model : LpProblem :=
  {| prob_name := "Furniture_Manufacturing_Optimization";
     direction_of := LpMaximize;
     objective :=
       Some ({| terms := [(tables, 220); (chairs, 80)]; constant := 0 |},
             "Total_Profit");
     constraints :=
       [("Labor_Constraint",
         {| expr := {| terms := [(tables, 8); (chairs, 5)]; constant := 0 |};
            rel := LpConstraintLE; rhs := 400 |});
        ("Wood_Constraint",
         {| expr := {| terms := [(tables, 30); (chairs, 10)]; constant := 0 |};
            rel := LpConstraintLE; rhs := 800 |});
        ("Machine_Time_Constraint",
         {| expr := {| terms := [(tables, 4); (chairs, 2)]; constant := 0 |};
            rel := LpConstraintLE; rhs := 150 |});
        ("Minimum_Tables",
         {| expr := {| terms := [(tables, 1)]; constant := 0 |};
            rel := LpConstraintGE; rhs := 10 |});
        ("Minimum_Chairs",
         {| expr := {| terms := [(chairs, 1)]; constant := 0 |};
            rel := LpConstraintGE; rhs := 20 |})] |}.

(** The assignment with [t] tables and [c] chairs. *)
Definition make (t c : Z) : assignment :=
  fun x => if String.eqb x "Tables" then t
           else if String.eqb x "Chairs" then c else 0.

(** A solver's answer that reports [t] tables and [c] chairs with the given
    status and no dual values. *)
Definition answer (st : status) (t c : float) (p : LpProblem) : Solution :=
  {| sol_status := st;
     varValue := fun x => if String.eqb x "Tables" then Some t
                          else if String.eqb x "Chairs" then Some c else None;
     pi := fun _ => None |}.

(** ** The module-level script, lines 139 to 156 *)

Module Script.

(** [s.replace(a, b)] for one-character [a] and [b]. *)
Fixpoint replace (a b : ascii) (s : string) : string :=
  match s with
  | EmptyString => EmptyString
  | String x s' => String (if Ascii.eqb x a then b else x) (replace a b s')
  end.

Definition is_lower (x : ascii) : bool :=
  let n := nat_of_ascii x in (97 <=? n)%nat && (n <=? 122)%nat.

Definition is_upper (x : ascii) : bool :=
  let n := nat_of_ascii x in (65 <=? n)%nat && (n <=? 90)%nat.

Definition upper (x : ascii) : ascii :=
  if is_lower x then ascii_of_nat (nat_of_ascii x - 32) else x.

Definition lower (x : ascii) : ascii :=
  if is_upper x then ascii_of_nat (nat_of_ascii x + 32) else x.

(** [s.title()] on ASCII text: a letter that follows a letter is lowered,
    any other letter is raised. *)
Fixpoint title_from (after_letter : bool) (s : string) : string :=
  match s with
  | EmptyString => EmptyString
  | String x s' =>
      let letter := is_lower x || is_upper x in
      String (if letter then if after_letter then lower x else upper x else x)
             (title_from letter s')
  end.

Definition title (s : string) : string := title_from false s.

Definition digits (n : Z) : string := NilZero.string_of_int (Z.to_int n).

(** The value [m * 2^e] in hundredths, rounded to nearest, ties to even. *)
Definition hundredths (m : positive) (e : Z) : Z :=
  if 0 <=? e then Z.pos m * 2 ^ e * 100
  else
    let d := 2 ^ (- e) in
    let n := Z.pos m * 100 in
    let q := n / d in
    let r := n mod d in
    if 2 * r <? d then q
    else if d <? 2 * r then q + 1
    else if Z.even q then q else q + 1.

Definition fixed2 (negative : bool) (h : Z) : string :=
  let units := digits (h / 100) in
  let pad := if h mod 100 <? 10 then "0" else "" in
  let cents := digits (h mod 100) in
  ((if negative then "-" else "") ++ units ++ "." ++ pad ++ cents)%string.

(** [format(x, '.2f')] on a float. *)
Definition format_float (x : float) : string :=
  match Prim2SF x with
  | S754_zero s => fixed2 s 0
  | S754_finite s m e => fixed2 s (hundredths m e)
  | S754_infinity s => if s then "-inf" else "inf"
  | S754_nan => "nan"
  end.

(** [format(v, '.2f')]: an int is turned into a float first. *)
Definition format_2f (v : value) : result string :=
  match v with
  | VFloat x => Ok (format_float x)
  | VInt n => x <- float_of_int n;; Ok (format_float x)
  | VStr _ => Raise ValueError
  | _ => Raise TypeError
  end.

(** The truth value of [v] in an [if]. *)
Definition truthy (v : value) : bool :=
  match v with
  | VNone => false
  | VInt n => negb (n =? 0)
  | VFloat x => negb (x =? 0)%float
  | VStr s => negb (String.eqb s "")
  | VList l => match l with [] => false | _ => true end
  | VDict d => match d with [] => false | _ => true end
  end.

(** [v.items()]. *)
Definition items (v : value) : result (dict value) :=
  match v with
  | VDict d => Ok d
  | _ => Raise AttributeError
  end.

(** The values a [for] loop over [v] goes through. *)
Definition iterate (v : value) : result (list value) :=
  match v with
  | VList l => Ok l
  | VDict d => Ok (map VStr (keys d))
  | VStr s => Ok (map (fun x => VStr (String x "")) (list_ascii_of_string s))
  | _ => Raise TypeError
  end.

(** [v.replace('_', ' ').title()]. *)
Definition heading (v : value) : result string :=
  match v with
  | VStr s => Ok (title (replace "_" " " s))
  | _ => Raise AttributeError
  end.

(** A printed line: literal text and the values interpolated with the
    default format. *)
Inductive fragment : Type :=
| Lit (s : string)
| Interp (v : value).

Definition line : Type := list fragment.

(** Computations that print and may raise: the lines printed so far are
    kept when an exception ends the run. *)
Definition io (A : Type) : Type := list line -> list line * result A.

Definition ret {A : Type} (a : A) : io A := fun out => (out, Ok a).

Definition lift {A : Type} (r : result A) : io A := fun out => (out, r).

Definition print (l : line) : io unit := fun out => ((out ++ [l])%list, Ok tt).

Definition then_ {A B : Type} (m : io A) (k : A -> io B) : io B :=
  fun out =>
    match m out with
    | (out', Ok a) => k a out'
    | (out', Raise e) => (out', Raise e)
    end.

Fixpoint for_each {A : Type} (l : list A) (body : A -> io unit) : io unit :=
  match l with
  | [] => ret tt
  | x :: l' => then_ (body x) (fun _ => for_each l' body)
  end.

End Script.

Import Script.

Declare Scope io_scope.
Delimit Scope io_scope with io.
Notation "x <~ m ;; k" := (then_ m (fun x => k))
  (at level 61, m at next level, right associativity) : io_scope.
Notation "m ;;; k" := (then_ m (fun _ => k))
  (at level 61, right associativity) : io_scope.

Definition newline : string := String (ascii_of_nat 10) "".

(** Lines 109 to 136.  Charting is left to pandas and matplotlib; what
    remains of it here are the two fields it reads. *)
Definition visualize_results (results : value) : io unit :=
  (production <~ lift (getitem results "optimal_production");;
   utilization <~ lift (getitem results "resource_utilization");;
   ret tt)%io.

(** Lines 139 to 156: run the optimisation, print the report, draw the
    charts. *)
Definition module_level (solve : LpProblem -> Solution) : io unit :=
  (results <~ lift (optimize_manufacturing_resources solve);;
   print [Lit "Optimization Results:"];;;
   production <~ lift (getitem results "optimal_production");;
   t <~ lift (getitem production "tables");;
   production <~ lift (getitem results "optimal_production");;
   c <~ lift (getitem production "chairs");;
   print [Lit "Optimal Production: "; Interp t; Lit " tables and "; Interp c;
          Lit " chairs"];;;
   profit <~ lift (getitem results "optimal_profit");;
   profit <~ lift (format_2f profit);;
   print [Lit ("Optimal Profit: $" ++ profit)];;;
   print [Lit (newline ++ "Resource Usage:")];;;
   usage <~ lift (getitem results "resource_usage");;
   usage <~ lift (items usage);;
   for_each usage (fun ru =>
     name <~ lift (heading (VStr (fst ru)));;
     amount <~ lift (format_2f (snd ru));;
     pcts <~ lift (getitem results "resource_utilization");;
     pct <~ lift (getitem pcts (fst ru));;
     pct <~ lift (format_2f pct);;
     print [Lit ("  " ++ name ++ ": " ++ amount ++ " units (" ++ pct ++ "%)")]);;;
   print [Lit (newline ++ "Binding Constraints:")];;;
   binding <~ lift (getitem results "binding_constraints");;
   (if truthy binding then
      binding <~ lift (getitem results "binding_constraints");;
      binding <~ lift (iterate binding);;
      for_each binding (fun constraint =>
        name <~ lift (heading constraint);;
        print [Lit ("  " ++ name)])
    else print [Lit "  None"]);;;
   visualize_results results)%io.

(** What the script prints and how it ends. *)
Definition run (solve : LpProblem -> Solution) : list line * result unit :=
  module_level solve [].

(** [results[a][b]]. *)
Definition at2 (results : value) (a b : string) : result value :=
  x <- getitem results a;; getitem x b.

(** The solve of the program's problem ended with status Optimal and
    reports integers that satisfy every bound and constraint. *)
Definition feasible_solve (solve : LpProblem -> Solution) : Prop :=
  forall p, prob = Ok p ->
    sol_status (solve p) = LpStatusOptimal /\
    exists a, feasible p a = true /\ reports (solve p) p a.

(** ** Auxiliary definitions for the proofs *)

Definition status_eq_dec (s1 s2 : status) : {s1 = s2} + {s1 <> s2}.
Proof. decide equality. Defined.

(** The dictionary of lines 94 to 105, from the two truncated quantities,
    the objective value, the three quotients of lines 77 to 79 and the
    solution's dual values. *)
Definition success (t c : Z) (profit : value) (lq wq mq : float) (sol : Solution)
  : value :=
  let ru := [("labor_hours", (lq * 100)%float); ("wood", (wq * 100)%float);
             ("machine_time", (mq * 100)%float)] in
  VDict
    [("optimal_production", VDict [("tables", VInt t); ("chairs", VInt c)]);
     ("optimal_profit", profit);
     ("resource_usage",
      VDict [("labor_hours", VInt (8 * t + 5 * c)); ("wood", VInt (30 * t + 10 * c));
             ("machine_time", VInt (4 * t + 2 * c))]);
     ("resource_utilization", VDict (map (fun r => (fst r, VFloat (snd r))) ru));
     ("binding_constraints",
      VList (map VStr (map fst (filter (fun r => approximately_full (snd r)) ru))));
     ("shadow_prices",
      VDict (map (fun nc => (fst nc, opt_float (pi sol (fst nc)))) (constraints model)))].

Definition profit_of (sol : Solution) : value :=
  expr_value sol {| terms := [(tables, 220); (chairs, 80)]; constant := 0 |}.

Fixpoint upto (n : nat) (lo : Z) : list Z :=
  match n with
  | O => []
  | S n' => lo :: upto n' (lo + 1)
  end.

Definition is_ok_int (r : result Z) (n : Z) : bool :=
  match r with
  | Ok m => m =? n
  | Raise _ => false
  end.

Definition is_ok {A : Type} (r : result A) : bool :=
  match r with
  | Ok _ => true
  | Raise _ => false
  end.

Definition is_some_int (o : option Z) (n : Z) : bool :=
  match o with
  | Some m => m =? n
  | None => false
  end.

(** The float sum that [pulp.value] forms for the objective. *)
Definition profit_float (tv cv : float) : float :=
  (float_of_Z 0 + tv * float_of_Z 220 + cv * float_of_Z 80)%float.

(** The constraints the model is to have, stated from the data: for a
    resource and its limit, per-unit usages times quantities at most the
    limit; for a product and its floor, the quantity at least the floor. *)
Definition resource_row (rl : string * Z) : option LpConstraint :=
  match lookup (fst rl) table_data, lookup (fst rl) chair_data with
  | Some a, Some b =>
      Some {| expr := {| terms := [(tables, a); (chairs, b)]; constant := 0 |};
              rel := LpConstraintLE; rhs := snd rl |}
  | _, _ => None
  end.

Definition floors : list (LpVariable * Z) :=
  [(tables, min_tables); (chairs, min_chairs)].

Definition floor_row (xf : LpVariable * Z) : LpConstraint :=
  {| expr := {| terms := [(fst xf, 1)]; constant := 0 |};
     rel := LpConstraintGE; rhs := snd xf |}.

Definition has_sense (s : sense) (nc : string * LpConstraint) : bool :=
  match rel (snd nc), s with
  | LpConstraintLE, LpConstraintLE => true
  | LpConstraintGE, LpConstraintGE => true
  | LpConstraintEQ, LpConstraintEQ => true
  | _, _ => false
  end.

(** The tolerance test agrees with "the resource is used up". *)
Definition full_when_exhausted (l u : Z) : bool :=
  match int_truediv u l with
  | Ok q => Bool.eqb (approximately_full (q * 100)) (u =? l)
  | Raise _ => false
  end.

(** A value a solver may report for an integer variable within its
    integrality tolerance: [10 - 2^-30]. *)
Definition nearly_ten : float := (10 - 0x1p-30)%float.

(** What the function returns on the answer 10 tables, 50 chairs. *)
Definition canonical_results : value :=
  Eval vm_compute in
    match optimize_manufacturing_resources (answer LpStatusOptimal 10 50) with
    | Ok v => v
    | Raise _ => VNone
    end.

(** A solve that ends Optimal and leaves no value in any variable. *)
Definition unset : LpProblem -> Solution :=
  fun _ => {| sol_status := LpStatusOptimal;
              varValue := fun _ => None;
              pi := fun _ => None |}.

(** The percentage of a usage within its limit lies between 0 and 100. *)
Definition percent_in_range (l u : Z) : bool :=
  match int_truediv u l with
  | Ok q => (0 <=? q * 100)%float && (q * 100 <=? 100)%float
  | Raise _ => false
  end.

(** An answer of 10 tables and 50 chairs with a dual value of 8 on the wood
    constraint, 0 on the other resource constraints and none on the floors. *)
Definition priced : LpProblem -> Solution :=
  fun _ => {| sol_status := LpStatusOptimal;
              varValue := varValue (answer LpStatusOptimal 10 50 model);
              pi := fun n => if String.eqb n "Wood_Constraint" then Some 8%float
                             else if String.eqb n "Minimum_Tables" then None
                             else if String.eqb n "Minimum_Chairs" then None
                             else Some 0%float |}.

Definition priced_results : value :=
  Eval vm_compute in
    match optimize_manufacturing_resources priced with
    | Ok v => v
    | Raise _ => VNone
    end.

(** [t] is [q] truncated towards zero. *)
Definition truncation_of (q : Q) (t : Z) : Prop :=
  (0 <= q /\ inject_Z t <= q /\ q < inject_Z t + 1)%Q \/
  (q <= 0 /\ inject_Z t - 1 < q /\ q <= inject_Z t)%Q.

(** The amount [u] is printed with its digits and two zero decimals. *)
Definition prints_amount (u : Z) : bool :=
  match format_2f (VInt u) with
  | Ok s => String.eqb s (digits u ++ ".00")
  | Raise _ => false
  end.

(** So is the profit of [t] tables and [c] chairs. *)
Definition prints_profit (t c : Z) : bool :=
  String.eqb (format_float (profit_float (float_of_Z t) (float_of_Z c)))
             (digits (220 * t + 80 * c) ++ ".00").

(** * Properties *)

(** ** The model that is built *)

Lemma prob_model : prob = Ok model.
Proof. reflexivity. Qed.

Lemma feasible_model (a : assignment) :
  feasible model a = true <->
  min_tables <= a "Tables" /\ min_chairs <= a "Chairs" /\
  8 * a "Tables" + 5 * a "Chairs" <= 400 /\
  30 * a "Tables" + 10 * a "Chairs" <= 800 /\
  4 * a "Tables" + 2 * a "Chairs" <= 150.
Proof.
  unfold feasible, within_bounds, holds, eval, min_tables, min_chairs;
    cbn -[Z.mul Z.add Z.leb].
  rewrite !andb_true_iff, !Z.leb_le. lia.
Qed.

Lemma optimum_model (a : assignment) :
  optimum model a <-> a "Tables" = 10 /\ a "Chairs" = 50.
Proof.
  unfold optimum; split.
  - intros [Hf Hmax].
    apply feasible_model in Hf. unfold min_tables, min_chairs in Hf.
    assert (Hw : feasible model (make 10 50) = true)
      by (apply feasible_model; cbn; unfold min_tables, min_chairs; lia).
    specialize (Hmax _ Hw). cbn -[Z.mul Z.add] in Hmax. lia.
  - intros [Ht Hc]. split.
    + apply feasible_model. unfold min_tables, min_chairs. lia.
    + intros a' Hf. apply feasible_model in Hf.
      unfold min_tables, min_chairs in Hf. cbn -[Z.mul Z.add]. lia.
Qed.

(** ** The shape of what the function returns *)

Lemma optimize_steps (solve : LpProblem -> Solution) :
  optimize_manufacturing_resources solve =
  let sol := solve model in
  if negb (String.eqb (LpStatus (sol_status sol)) "Optimal") then
    Ok (VStr "No optimal solution found.")
  else
    t <- int_ (varValue sol "Tables");;
    c <- int_ (varValue sol "Chairs");;
    lq <- int_truediv (8 * t + 5 * c) 400;;
    wq <- int_truediv (30 * t + 10 * c) 800;;
    mq <- int_truediv (4 * t + 2 * c) 150;;
    Ok (success t c (profit_of sol) lq wq mq sol).
Proof.
  unfold optimize_manufacturing_resources. rewrite prob_model.
  cbv beta iota delta [bind]. cbv zeta.
  destruct (negb _); [reflexivity|].
  unfold var_value, tables, chairs, var_name.
  destruct (int_ (varValue (solve model) "Tables")) as [t|]; [|reflexivity].
  destruct (int_ (varValue (solve model) "Chairs")) as [c|]; [|reflexivity].
  unfold objective_value, model, objective, used, utilization, bind.
  cbn [item lookup table_data chair_data available_resources String.eqb Ascii.eqb Bool.eqb].
  destruct (int_truediv (8 * t + 5 * c) 400) as [lq|]; [|reflexivity].
  destruct (int_truediv (30 * t + 10 * c) 800) as [wq|]; [|reflexivity].
  destruct (int_truediv (4 * t + 2 * c) 150) as [mq|]; reflexivity.
Qed.

(** ** Checking a property on every integer of a range *)

Lemma In_upto (n : nat) : forall lo x, lo <= x < lo + Z.of_nat n -> In x (upto n lo).
Proof.
  induction n as [|n IH]; intros lo x Hx.
  - cbn in Hx. lia.
  - cbn [upto]. destruct (Z.eq_dec lo x) as [->|Hne]; [now left|].
    right. apply IH. lia.
Qed.

Lemma on_range (P : Z -> bool) (n : nat) (lo : Z) :
  forallb P (upto n lo) = true ->
  forall x, lo <= x < lo + Z.of_nat n -> P x = true.
Proof.
  intros Hall x Hx. rewrite forallb_forall in Hall.
  apply Hall, In_upto, Hx.
Qed.

(** ** Floats of small integers *)

Lemma is_ok_int_eq (r : result Z) (n : Z) : is_ok_int r n = true -> r = Ok n.
Proof.
  destruct r as [m|e]; cbn; [|discriminate].
  intros H. apply Z.eqb_eq in H. now subst.
Qed.

(** [int(float(n))] gives [n] back for every quantity the constraints allow. *)
Lemma int_float_small (n : Z) :
  0 <= n <= 100 -> int_of_float (float_of_Z n) = Ok n.
Proof.
  intros Hn. apply is_ok_int_eq.
  apply (on_range (fun k => is_ok_int (int_of_float (float_of_Z k)) k) 101 0);
    [vm_compute; reflexivity | cbn; lia].
Qed.

Lemma is_ok_ex {A : Type} (r : result A) : is_ok r = true -> exists a, r = Ok a.
Proof. destruct r as [a|e]; [eauto | discriminate]. Qed.

(** A usage within its limit divides by the limit without overflow. *)
Lemma truediv_within (u l : Z) :
  In l (map snd available_resources) -> 0 <= u <= l ->
  exists q, int_truediv u l = Ok q.
Proof.
  intros Hl Hu. apply is_ok_ex.
  cbn in Hl. destruct Hl as [<-|[<-|[<-|[]]]].
  - apply (on_range (fun k => is_ok (int_truediv k 400)) 401 0);
      [vm_compute; reflexivity | cbn; lia].
  - apply (on_range (fun k => is_ok (int_truediv k 800)) 801 0);
      [vm_compute; reflexivity | cbn; lia].
  - apply (on_range (fun k => is_ok (int_truediv k 150)) 151 0);
      [vm_compute; reflexivity | cbn; lia].
Qed.

Lemma is_some_int_eq (o : option Z) (n : Z) : is_some_int o n = true -> o = Some n.
Proof.
  destruct o as [m|]; cbn; [|discriminate].
  intros H. apply Z.eqb_eq in H. now subst.
Qed.

(** On the quantities the constraints allow the float arithmetic of the
    objective is exact. *)
Lemma profit_exact (t c : Z) :
  0 <= t <= 30 -> 0 <= c <= 80 ->
  integral (profit_float (float_of_Z t) (float_of_Z c)) = Some (220 * t + 80 * c).
Proof.
  intros Ht Hc. apply is_some_int_eq.
  pose (P := fun t c =>
    is_some_int (integral (profit_float (float_of_Z t) (float_of_Z c)))
                (220 * t + 80 * c)).
  change (P t c = true).
  apply (on_range (fun c => P t c) 81 0); [|cbn; lia].
  apply (on_range (fun t => forallb (fun c => P t c) (upto 81 0)) 31 0);
    [vm_compute; reflexivity | cbn; lia].
Qed.

(** ** Running the function on a feasible, integral solution *)

Lemma reports_model (s : Solution) (a : assignment) :
  reports s model a ->
  varValue s "Tables" = Some (float_of_Z (a "Tables")) /\
  varValue s "Chairs" = Some (float_of_Z (a "Chairs")).
Proof.
  unfold reports. cbn [variables model objective terms map fst app].
  intros H. inversion H as [|x l Ht H']; subst.
  inversion H' as [|y l' Hc _]; subst.
  split; [exact Ht | exact Hc].
Qed.

Lemma profit_of_values (s : Solution) (tv cv : float) :
  varValue s "Tables" = Some tv -> varValue s "Chairs" = Some cv ->
  profit_of s = VFloat (profit_float tv cv).
Proof.
  intros Ht Hc. unfold profit_of, expr_value.
  cbn [terms constant sum_terms tables chairs var_name].
  now rewrite Ht, Hc.
Qed.

Lemma optimize_feasible (solve : LpProblem -> Solution) (a : assignment) :
  sol_status (solve model) = LpStatusOptimal ->
  feasible model a = true ->
  reports (solve model) model a ->
  let t := a "Tables" in
  let c := a "Chairs" in
  exists lq wq mq,
    int_truediv (8 * t + 5 * c) 400 = Ok lq /\
    int_truediv (30 * t + 10 * c) 800 = Ok wq /\
    int_truediv (4 * t + 2 * c) 150 = Ok mq /\
    optimize_manufacturing_resources solve =
      Ok (success t c (VFloat (profit_float (float_of_Z t) (float_of_Z c)))
                  lq wq mq (solve model)).
Proof.
  intros Hst Hf Hrep t c.
  apply feasible_model in Hf. unfold min_tables, min_chairs in Hf.
  fold t c in Hf.
  destruct (reports_model _ _ Hrep) as [Hvt Hvc]. fold t in Hvt. fold c in Hvc.
  destruct (truediv_within (8 * t + 5 * c) 400) as [lq Hlq];
    [cbn; tauto | lia |].
  destruct (truediv_within (30 * t + 10 * c) 800) as [wq Hwq];
    [cbn; tauto | lia |].
  destruct (truediv_within (4 * t + 2 * c) 150) as [mq Hmq];
    [cbn; tauto | lia |].
  exists lq, wq, mq. repeat split; try assumption.
  rewrite optimize_steps. cbv zeta. rewrite Hst.
  cbn [LpStatus String.eqb Ascii.eqb Bool.eqb negb].
  rewrite Hvt, Hvc. unfold int_, bind.
  rewrite !int_float_small by lia.
  rewrite Hlq, Hwq, Hmq.
  now rewrite (profit_of_values _ _ _ Hvt Hvc).
Qed.

(** ** The canonical scenario *)

(** C1.  With the program's fixed data (tables: labor 8, wood 30, machine 4,
    profit 220; chairs: labor 5, wood 10, machine 2, profit 80; limits 400,
    800, 150; floors 10 and 20), a solve that ends Optimal and reports an
    optimum makes the function return 10 tables and 50 chairs, profit 6200,
    usage labor 330, wood 800, machine time 140, utilization 82.5, 100 and
    93.33 (the float of 140/150*100, which lies in [93.33, 93.34) and which
    '.2f' renders as 93.33), and wood as the only binding constraint. *)
Theorem canonical_result (solve : LpProblem -> Solution) :
  optimal_solve solve ->
  exists results machine_pct exact,
    optimize_manufacturing_resources solve = Ok results /\
    getitem results "optimal_production"
      = Ok (VDict [("tables", VInt 10); ("chairs", VInt 50)]) /\
    getitem results "optimal_profit" = Ok (VFloat 6200) /\
    getitem results "resource_usage"
      = Ok (VDict [("labor_hours", VInt 330); ("wood", VInt 800);
                   ("machine_time", VInt 140)]) /\
    getitem results "resource_utilization"
      = Ok (VDict [("labor_hours", VFloat 82.5); ("wood", VFloat 100);
                   ("machine_time", VFloat machine_pct)]) /\
    to_Q machine_pct = Some exact /\
    (93.33 <= exact)%Q /\ (exact < 93.34)%Q /\
    format_float machine_pct = "93.33" /\
    getitem results "binding_constraints" = Ok (VList [VStr "wood"]).
Proof.
  intros Hsolve.
  destruct (Hsolve model prob_model) as [Hst [a [Hopt Hrep]]].
  pose proof Hopt as [Hf _].
  apply optimum_model in Hopt as [Ht Hc].
  destruct (optimize_feasible solve a Hst Hf Hrep) as (lq & wq & mq & Hl & Hw & Hm & Hrun).
  rewrite Ht, Hc in Hl, Hw, Hm, Hrun.
  vm_compute in Hl, Hw, Hm.
  injection Hl as <-. injection Hw as <-. injection Hm as <-.
  eexists _, _, _. split; [exact Hrun|].
  repeat split; try (vm_compute; reflexivity); vm_compute; congruence.
Qed.

Lemma canonical_result_witness :
  exists results machine_pct exact,
    optimize_manufacturing_resources (answer LpStatusOptimal 10 50) = Ok results /\
    getitem results "optimal_production"
      = Ok (VDict [("tables", VInt 10); ("chairs", VInt 50)]) /\
    getitem results "optimal_profit" = Ok (VFloat 6200) /\
    getitem results "resource_usage"
      = Ok (VDict [("labor_hours", VInt 330); ("wood", VInt 800);
                   ("machine_time", VInt 140)]) /\
    getitem results "resource_utilization"
      = Ok (VDict [("labor_hours", VFloat 82.5); ("wood", VFloat 100);
                   ("machine_time", VFloat machine_pct)]) /\
    to_Q machine_pct = Some exact /\
    (93.33 <= exact)%Q /\ (exact < 93.34)%Q /\
    format_float machine_pct = "93.33" /\
    getitem results "binding_constraints" = Ok (VList [VStr "wood"]).
Proof.
  apply (canonical_result (answer LpStatusOptimal 10 50)).
  intros p Hp. rewrite prob_model in Hp. injection Hp as <-.
  split; [reflexivity|].
  exists (make 10 50). split.
  - apply optimum_model. split; reflexivity.
  - unfold reports. cbn. repeat constructor.
Defined.

(** ** Solves that do not end Optimal *)

Lemma not_optimal_returns (solve : LpProblem -> Solution) :
  sol_status (solve model) <> LpStatusOptimal ->
  optimize_manufacturing_resources solve = Ok (VStr "No optimal solution found.").
Proof.
  intros Hst. rewrite optimize_steps. cbv zeta.
  destruct (sol_status (solve model)); try reflexivity.
  now contradiction Hst.
Qed.

Lemma optimal_iff_dict (solve : LpProblem -> Solution) (v : value) :
  optimize_manufacturing_resources solve = Ok v ->
  (sol_status (solve model) = LpStatusOptimal <-> exists d, v = VDict d).
Proof.
  intros Hrun. split.
  - intros Hst. rewrite optimize_steps in Hrun. cbv zeta in Hrun.
    rewrite Hst in Hrun. cbn [LpStatus String.eqb Ascii.eqb Bool.eqb negb] in Hrun.
    destruct (int_ _) as [t|]; [|discriminate].
    destruct (int_ _) as [c|]; [|discriminate]. cbn [bind] in Hrun.
    destruct (int_truediv _ 400) as [lq|]; [|discriminate].
    destruct (int_truediv _ 800) as [wq|]; [|discriminate].
    destruct (int_truediv _ 150) as [mq|]; [|discriminate].
    cbn [bind] in Hrun. injection Hrun as <-. unfold success. eauto.
  - intros [d ->].
    destruct (status_eq_dec (sol_status (solve model)) LpStatusOptimal) as [H|H];
      [exact H|].
    rewrite (not_optimal_returns solve H) in Hrun. discriminate.
Qed.

(** C2, as the code has it.  Whenever the solver status is not Optimal the
    function returns the one string "No optimal solution found."; two solves
    that end with any two statuses other than Optimal return the same value,
    so the status is not carried to the caller. *)
Theorem failure_is_one_string (solve1 solve2 : LpProblem -> Solution) :
  sol_status (solve1 model) <> LpStatusOptimal ->
  sol_status (solve2 model) <> LpStatusOptimal ->
  optimize_manufacturing_resources solve1 = Ok (VStr "No optimal solution found.") /\
  optimize_manufacturing_resources solve1 = optimize_manufacturing_resources solve2.
Proof.
  intros H1 H2. rewrite !not_optimal_returns by assumption. split; reflexivity.
Qed.

Lemma failure_is_one_string_witness :
  optimize_manufacturing_resources (answer LpStatusInfeasible 0 0)
    = Ok (VStr "No optimal solution found.") /\
  optimize_manufacturing_resources (answer LpStatusInfeasible 0 0)
    = optimize_manufacturing_resources (answer LpStatusUndefined 0 0).
Proof.
  apply (failure_is_one_string (answer LpStatusInfeasible 0 0)
                               (answer LpStatusUndefined 0 0));
    cbn; discriminate.
Defined.

(** C2 as stated fails: an Infeasible and an Unbounded solve differ in
    status, yet the caller receives the same value from both. *)
Lemma failure_status_not_carried :
  ~ (forall solve1 solve2 : LpProblem -> Solution,
       sol_status (solve1 model) <> LpStatusOptimal ->
       sol_status (solve2 model) <> LpStatusOptimal ->
       sol_status (solve1 model) <> sol_status (solve2 model) ->
       optimize_manufacturing_resources solve1
         <> optimize_manufacturing_resources solve2).
Proof.
  intros H.
  apply (H (answer LpStatusInfeasible 0 0) (answer LpStatusUnbounded 0 0));
    try (cbn; discriminate).
  reflexivity.
Qed.

(** C9.  When the solver status is not Optimal the function returns the bare
    string "No optimal solution found.", which has none of the fields of the
    success dictionary (subscripting it with any key raises TypeError); the
    module-level script subscripts what it received without looking at its
    shape, so after the heading line it ends in that TypeError. *)
Theorem failure_shape_unchecked (solve : LpProblem -> Solution) :
  sol_status (solve model) <> LpStatusOptimal ->
  optimize_manufacturing_resources solve = Ok (VStr "No optimal solution found.") /\
  (forall k, getitem (VStr "No optimal solution found.") k = Raise TypeError) /\
  run solve = ([[Lit "Optimization Results:"]], Raise TypeError).
Proof.
  intros Hst. pose proof (not_optimal_returns solve Hst) as Hrun.
  split; [exact Hrun|]. split; [reflexivity|].
  unfold run, module_level, then_, lift. now rewrite Hrun.
Qed.

Lemma failure_shape_unchecked_witness :
  optimize_manufacturing_resources (answer LpStatusUnbounded 10 50)
    = Ok (VStr "No optimal solution found.") /\
  (forall k, getitem (VStr "No optimal solution found.") k = Raise TypeError) /\
  run (answer LpStatusUnbounded 10 50)
    = ([[Lit "Optimization Results:"]], Raise TypeError).
Proof.
  apply (failure_shape_unchecked (answer LpStatusUnbounded 10 50)).
  cbn. discriminate.
Defined.

(** ** Results of solves that end Optimal *)

Lemma optimal_returns (solve : LpProblem -> Solution) (results : value) :
  sol_status (solve model) = LpStatusOptimal ->
  optimize_manufacturing_resources solve = Ok results ->
  exists t c lq wq mq,
    int_ (varValue (solve model) "Tables") = Ok t /\
    int_ (varValue (solve model) "Chairs") = Ok c /\
    int_truediv (8 * t + 5 * c) 400 = Ok lq /\
    int_truediv (30 * t + 10 * c) 800 = Ok wq /\
    int_truediv (4 * t + 2 * c) 150 = Ok mq /\
    results = success t c (profit_of (solve model)) lq wq mq (solve model).
Proof.
  intros Hst Hrun. rewrite optimize_steps in Hrun. cbv zeta in Hrun.
  rewrite Hst in Hrun. cbn [LpStatus String.eqb Ascii.eqb Bool.eqb negb] in Hrun.
  destruct (int_ (varValue (solve model) "Tables")) as [t|]; [|discriminate].
  destruct (int_ (varValue (solve model) "Chairs")) as [c|]; [|discriminate].
  cbn [bind] in Hrun.
  destruct (int_truediv (8 * t + 5 * c) 400) as [lq|] eqn:Hl; [|discriminate].
  destruct (int_truediv (30 * t + 10 * c) 800) as [wq|] eqn:Hw; [|discriminate].
  destruct (int_truediv (4 * t + 2 * c) 150) as [mq|] eqn:Hm; [|discriminate].
  cbn [bind] in Hrun. injection Hrun as <-.
  exists t, c, lq, wq, mq. repeat split; assumption.
Qed.

Lemma resource_cases (r : string) (l : Z) :
  lookup r available_resources = Some l ->
  (r = "labor_hours" /\ l = 400) \/ (r = "wood" /\ l = 800)
  \/ (r = "machine_time" /\ l = 150).
Proof.
  unfold available_resources. cbn [lookup].
  destruct (String.eqb_spec "labor_hours" r) as [<-|_];
    [intros [= <-]; now left|].
  destruct (String.eqb_spec "wood" r) as [<-|_];
    [intros [= <-]; right; now left|].
  destruct (String.eqb_spec "machine_time" r) as [<-|_];
    [intros [= <-]; right; now right | discriminate].
Qed.

Lemma resource_keys (r : string) :
  In r (keys available_resources) ->
  r = "labor_hours" \/ r = "wood" \/ r = "machine_time".
Proof. cbn. intuition. Qed.

Lemma feasible_solve_runs (solve : LpProblem -> Solution) :
  feasible_solve solve ->
  exists a lq wq mq,
    feasible model a = true /\ reports (solve model) model a /\
    int_truediv (8 * a "Tables" + 5 * a "Chairs") 400 = Ok lq /\
    int_truediv (30 * a "Tables" + 10 * a "Chairs") 800 = Ok wq /\
    int_truediv (4 * a "Tables" + 2 * a "Chairs") 150 = Ok mq /\
    optimize_manufacturing_resources solve =
      Ok (success (a "Tables") (a "Chairs")
            (VFloat (profit_float (float_of_Z (a "Tables")) (float_of_Z (a "Chairs"))))
            lq wq mq (solve model)).
Proof.
  intros Hsolve.
  destruct (Hsolve model prob_model) as [Hst [a [Hf Hrep]]].
  destruct (optimize_feasible solve a Hst Hf Hrep)
    as (lq & wq & mq & Hl & Hw & Hm & Hrun).
  exists a, lq, wq, mq. repeat split; assumption.
Qed.

Lemma answer_feasible (t c : Z) :
  feasible model (make t c) = true ->
  feasible_solve (answer LpStatusOptimal (float_of_Z t) (float_of_Z c)).
Proof.
  intros Hf p Hp. rewrite prob_model in Hp. injection Hp as <-.
  split; [reflexivity|]. exists (make t c). split; [exact Hf|].
  unfold reports. cbn. repeat constructor.
Qed.

(** C3.  For every result of a solve that ends Optimal (reporting integers
    that satisfy the constraints), the reported profit is exactly the sum of
    the per-unit profits times the reported quantities:
    optimal_profit == 220 * tables + 80 * chairs, with no rounding. *)
Theorem profit_is_sum (solve : LpProblem -> Solution) :
  feasible_solve solve ->
  exists results t c profit,
    optimize_manufacturing_resources solve = Ok results /\
    at2 results "optimal_production" "tables" = Ok (VInt t) /\
    at2 results "optimal_production" "chairs" = Ok (VInt c) /\
    getitem results "optimal_profit" = Ok (VFloat profit) /\
    item table_data "profit" = Ok 220 /\
    item chair_data "profit" = Ok 80 /\
    integral profit = Some (220 * t + 80 * c).
Proof.
  intros Hsolve.
  destruct (feasible_solve_runs solve Hsolve)
    as (a & lq & wq & mq & Hf & _ & _ & _ & _ & Hrun).
  apply feasible_model in Hf. unfold min_tables, min_chairs in Hf.
  exists (success (a "Tables") (a "Chairs")
            (VFloat (profit_float (float_of_Z (a "Tables")) (float_of_Z (a "Chairs"))))
            lq wq mq (solve model)).
  exists (a "Tables"), (a "Chairs").
  exists (profit_float (float_of_Z (a "Tables")) (float_of_Z (a "Chairs"))).
  split; [exact Hrun|].
  repeat split; try reflexivity.
  apply profit_exact; lia.
Qed.

Lemma profit_is_sum_witness :
  exists results t c profit,
    optimize_manufacturing_resources
      (answer LpStatusOptimal (float_of_Z 12) (float_of_Z 40)) = Ok results /\
    at2 results "optimal_production" "tables" = Ok (VInt t) /\
    at2 results "optimal_production" "chairs" = Ok (VInt c) /\
    getitem results "optimal_profit" = Ok (VFloat profit) /\
    item table_data "profit" = Ok 220 /\
    item chair_data "profit" = Ok 80 /\
    integral profit = Some (220 * t + 80 * c).
Proof.
  apply (profit_is_sum (answer LpStatusOptimal (float_of_Z 12) (float_of_Z 40))).
  apply answer_feasible. reflexivity.
Defined.

(** C5.  For every result of a solve that ends Optimal and every resource,
    the usage is the sum over the two products of the per-unit usage times
    the solved quantity, and the utilization percentage is that usage
    divided by the resource's limit, times 100. *)
Theorem usage_and_utilization (solve : LpProblem -> Solution) :
  feasible_solve solve ->
  exists results a,
    reports (solve model) model a /\
    optimize_manufacturing_resources solve = Ok results /\
    forall r limit,
      lookup r available_resources = Some limit ->
      exists per_table per_chair q,
        lookup r table_data = Some per_table /\
        lookup r chair_data = Some per_chair /\
        at2 results "resource_usage" r
          = Ok (VInt (per_table * a "Tables" + per_chair * a "Chairs")) /\
        int_truediv (per_table * a "Tables" + per_chair * a "Chairs") limit = Ok q /\
        at2 results "resource_utilization" r = Ok (VFloat (q * 100)).
Proof.
  intros Hsolve.
  destruct (feasible_solve_runs solve Hsolve)
    as (a & lq & wq & mq & _ & Hrep & Hl & Hw & Hm & Hrun).
  eexists _, a. split; [exact Hrep|]. split; [exact Hrun|].
  intros r limit Hr.
  destruct (resource_cases r limit Hr) as [[-> ->]|[[-> ->]|[-> ->]]].
  - exists 8, 5, lq. repeat split; try reflexivity; exact Hl.
  - exists 30, 10, wq. repeat split; try reflexivity; exact Hw.
  - exists 4, 2, mq. repeat split; try reflexivity; exact Hm.
Qed.

Lemma usage_and_utilization_witness :
  exists results a,
    reports (answer LpStatusOptimal (float_of_Z 12) (float_of_Z 40) model) model a /\
    optimize_manufacturing_resources
      (answer LpStatusOptimal (float_of_Z 12) (float_of_Z 40)) = Ok results /\
    forall r limit,
      lookup r available_resources = Some limit ->
      exists per_table per_chair q,
        lookup r table_data = Some per_table /\
        lookup r chair_data = Some per_chair /\
        at2 results "resource_usage" r
          = Ok (VInt (per_table * a "Tables" + per_chair * a "Chairs")) /\
        int_truediv (per_table * a "Tables" + per_chair * a "Chairs") limit = Ok q /\
        at2 results "resource_utilization" r = Ok (VFloat (q * 100)).
Proof.
  apply (usage_and_utilization
           (answer LpStatusOptimal (float_of_Z 12) (float_of_Z 40))).
  apply answer_feasible. reflexivity.
Defined.

(** C6.  For every result of a solve that ends Optimal, the production
    quantities are integers no smaller than their floors (tables >= 10,
    chairs >= 20) and the usage of every resource is at most its limit
    (labor <= 400, wood <= 800, machine time <= 150). *)
Theorem floors_and_limits_respected (solve : LpProblem -> Solution) :
  feasible_solve solve ->
  exists results t c,
    optimize_manufacturing_resources solve = Ok results /\
    at2 results "optimal_production" "tables" = Ok (VInt t) /\
    at2 results "optimal_production" "chairs" = Ok (VInt c) /\
    min_tables <= t /\ min_chairs <= c /\
    forall r limit,
      lookup r available_resources = Some limit ->
      exists u, at2 results "resource_usage" r = Ok (VInt u) /\ u <= limit.
Proof.
  intros Hsolve.
  destruct (feasible_solve_runs solve Hsolve)
    as (a & lq & wq & mq & Hf & _ & _ & _ & _ & Hrun).
  apply feasible_model in Hf.
  eexists _, (a "Tables"), (a "Chairs"). split; [exact Hrun|].
  repeat split; try reflexivity; try tauto.
  intros r limit Hr.
  destruct (resource_cases r limit Hr) as [[-> ->]|[[-> ->]|[-> ->]]];
    eexists; (split; [reflexivity|]); tauto.
Qed.

Lemma floors_and_limits_respected_witness :
  exists results t c,
    optimize_manufacturing_resources
      (answer LpStatusOptimal (float_of_Z 12) (float_of_Z 40)) = Ok results /\
    at2 results "optimal_production" "tables" = Ok (VInt t) /\
    at2 results "optimal_production" "chairs" = Ok (VInt c) /\
    min_tables <= t /\ min_chairs <= c /\
    forall r limit,
      lookup r available_resources = Some limit ->
      exists u, at2 results "resource_usage" r = Ok (VInt u) /\ u <= limit.
Proof.
  apply (floors_and_limits_respected
           (answer LpStatusOptimal (float_of_Z 12) (float_of_Z 40))).
  apply answer_feasible. reflexivity.
Defined.

(** ** The binding constraints *)

Lemma binding_of_success (t c : Z) (profit : value) (lq wq mq : float)
  (sol : Solution) :
  getitem (success t c profit lq wq mq sol) "binding_constraints"
  = Ok (VList (map VStr (map fst (filter (fun r => approximately_full (snd r))
          [("labor_hours", (lq * 100)%float); ("wood", (wq * 100)%float);
           ("machine_time", (mq * 100)%float)])))).
Proof. reflexivity. Qed.

Lemma In_VStr (r : string) (l : list string) : In (VStr r) (map VStr l) <-> In r l.
Proof.
  rewrite in_map_iff. split.
  - intros [x [[= ->] Hx]]. exact Hx.
  - intros Hr. exists r. now split.
Qed.

Lemma In_binding (r : string) (ru : dict float) :
  NoDup (keys ru) ->
  In r (map fst (filter (fun x => approximately_full (snd x)) ru)) <->
  exists pct, lookup r ru = Some pct /\ approximately_full pct = true.
Proof.
  induction ru as [|[k v] ru IH]; intros Hnd.
  - cbn. split; [intros [] | intros [pct [[=] _]]].
  - cbn [keys map fst] in Hnd. inversion Hnd as [|? ? Hk Hnd']; subst.
    specialize (IH Hnd').
    cbn [filter snd lookup]. destruct (String.eqb_spec k r) as [->|Hne].
    + destruct (approximately_full v) eqn:Hv.
      * split; [intros _; eauto | intros _; now left].
      * rewrite IH. split.
        -- intros [pct [Hl _]]. exfalso. apply Hk.
           clear -Hl. induction ru as [|[k' v'] ru IH]; [discriminate|].
           cbn [lookup] in Hl. cbn [keys map fst].
           destruct (String.eqb_spec k' r) as [->|_]; [now left | right; auto].
        -- intros [pct [[= <-] Hp]]. congruence.
    + destruct (approximately_full v) eqn:Hv.
      * cbn [map fst In]. rewrite IH. split; [intros [H|H]; [congruence | exact H] | auto].
      * exact IH.
Qed.

(** C4.  For every result of a solve that ends Optimal and every resource,
    the resource is in binding_constraints if and only if
    abs(utilization - 100) < 0.01 holds for its utilization percentage. *)
Theorem binding_iff_within_tolerance (solve : LpProblem -> Solution)
  (results : value) :
  sol_status (solve model) = LpStatusOptimal ->
  optimize_manufacturing_resources solve = Ok results ->
  exists binding,
    getitem results "binding_constraints" = Ok (VList binding) /\
    forall r, In r (keys available_resources) ->
      exists pct,
        at2 results "resource_utilization" r = Ok (VFloat pct) /\
        (In (VStr r) binding <-> (abs (pct - 100) <? tolerance)%float = true).
Proof.
  intros Hst Hrun.
  destruct (optimal_returns solve results Hst Hrun)
    as (t & c & lq & wq & mq & _ & _ & _ & _ & _ & ->).
  eexists. split; [apply binding_of_success|].
  intros r Hr. fold (approximately_full).
  assert (Hnd : NoDup (keys [("labor_hours", (lq * 100)%float);
                             ("wood", (wq * 100)%float);
                             ("machine_time", (mq * 100)%float)])).
  { cbn. repeat constructor; cbn; intuition discriminate. }
  destruct (resource_keys r Hr) as [->|[->| ->]].
  - exists (lq * 100)%float. split; [reflexivity|].
    rewrite In_VStr, (In_binding _ _ Hnd). cbn [lookup String.eqb Ascii.eqb Bool.eqb].
    split; [intros [pct [[= <-] H]]; exact H | eauto].
  - exists (wq * 100)%float. split; [reflexivity|].
    rewrite In_VStr, (In_binding _ _ Hnd). cbn [lookup String.eqb Ascii.eqb Bool.eqb].
    split; [intros [pct [[= <-] H]]; exact H | eauto].
  - exists (mq * 100)%float. split; [reflexivity|].
    rewrite In_VStr, (In_binding _ _ Hnd). cbn [lookup String.eqb Ascii.eqb Bool.eqb].
    split; [intros [pct [[= <-] H]]; exact H | eauto].
Qed.

Lemma binding_iff_within_tolerance_witness :
  exists binding,
    getitem canonical_results "binding_constraints" = Ok (VList binding) /\
    forall r, In r (keys available_resources) ->
      exists pct,
        at2 canonical_results "resource_utilization" r = Ok (VFloat pct) /\
        (In (VStr r) binding <-> (abs (pct - 100) <? tolerance)%float = true).
Proof.
  apply (binding_iff_within_tolerance (answer LpStatusOptimal 10 50) canonical_results);
    reflexivity.
Defined.

Lemma In_filter_keys {A : Type} (f : string * A -> bool) (r : string) (d : dict A) :
  In r (map fst (filter f d)) -> In r (keys d).
Proof.
  unfold keys. rewrite !in_map_iff.
  intros [x [Hx Hin]]. apply filter_In in Hin as [Hin _]. eauto.
Qed.

(** C10.  The binding constraints are always among the three resource names
    labor_hours, wood and machine_time; no minimum-production constraint is
    ever reported, not even Minimum_Tables, which holds with equality at the
    optimum (tables = 10 = floor). *)
Theorem binding_only_resources (solve : LpProblem -> Solution) (results : value) :
  sol_status (solve model) = LpStatusOptimal ->
  optimize_manufacturing_resources solve = Ok results ->
  exists binding,
    getitem results "binding_constraints" = Ok (VList binding) /\
    (forall v, In v binding ->
       exists r, v = VStr r /\ In r ["labor_hours"; "wood"; "machine_time"]) /\
    (forall n c, In (n, c) (constraints model) -> rel c = LpConstraintGE ->
       ~ In (VStr n) binding) /\
    (forall a, optimum model a -> reports (solve model) model a ->
       at2 results "optimal_production" "tables" = Ok (VInt min_tables) /\
       exists c, lookup "Minimum_Tables" (constraints model) = Some c /\
                 rel c = LpConstraintGE /\ eval a (expr c) = rhs c).
Proof.
  intros Hst Hrun.
  destruct (optimal_returns solve results Hst Hrun)
    as (t & c & lq & wq & mq & Ht & _ & _ & _ & _ & ->).
  eexists. split; [apply binding_of_success|].
  assert (Hsub : forall r,
    In (VStr r) (map VStr (map fst (filter (fun r => approximately_full (snd r))
        [("labor_hours", (lq * 100)%float); ("wood", (wq * 100)%float);
         ("machine_time", (mq * 100)%float)]))) ->
    In r ["labor_hours"; "wood"; "machine_time"]).
  { intros r Hr. apply In_VStr, In_filter_keys in Hr. exact Hr. }
  split; [|split].
  - intros v Hv. pose proof Hv as Hv'. apply in_map_iff in Hv' as [r [<- _]].
    exists r. split; [reflexivity | apply Hsub, Hv].
  - intros n k Hin Hrel Hb. apply Hsub in Hb.
    cbn in Hin.
    destruct Hin as [[= <- <-]|[[= <- <-]|[[= <- <-]|[[= <- <-]|[[= <- <-]|[]]]]]];
      cbn in Hrel, Hb; try discriminate; intuition discriminate.
  - intros a Hopt Hrep.
    apply optimum_model in Hopt as [Hta Hca].
    destruct (reports_model _ _ Hrep) as [Hvt _].
    rewrite Hvt, Hta in Ht. vm_compute in Ht. injection Ht as <-.
    split; [reflexivity|].
    eexists. split; [reflexivity|]. split; [reflexivity|].
    cbn -[Z.mul Z.add]. lia.
Qed.

Lemma binding_only_resources_witness :
  exists binding,
    getitem canonical_results "binding_constraints" = Ok (VList binding) /\
    (forall v, In v binding ->
       exists r, v = VStr r /\ In r ["labor_hours"; "wood"; "machine_time"]) /\
    (forall n c, In (n, c) (constraints model) -> rel c = LpConstraintGE ->
       ~ In (VStr n) binding) /\
    (forall a, optimum model a ->
       reports (answer LpStatusOptimal 10 50 model) model a ->
       at2 canonical_results "optimal_production" "tables" = Ok (VInt min_tables) /\
       exists c, lookup "Minimum_Tables" (constraints model) = Some c /\
                 rel c = LpConstraintGE /\ eval a (expr c) = rhs c).
Proof.
  apply (binding_only_resources (answer LpStatusOptimal 10 50) canonical_results);
    reflexivity.
Defined.

(** ** The model, constraint by constraint *)

(** C7.  The built model maximises the sum of per-unit profit times
    quantity; its <= constraints are exactly one per resource limit, with
    the per-unit usages as coefficients and the limit as bound; its >=
    constraints are exactly one per product with a positive floor; there is
    no other constraint, and the constraints carry fixed, distinct,
    readable names. *)
Theorem built_model :
  exists p,
    prob = Ok p /\
    direction_of p = LpMaximize /\
    (exists per_table per_chair name,
       lookup "profit" table_data = Some per_table /\
       lookup "profit" chair_data = Some per_chair /\
       objective p
       = Some ({| terms := [(tables, per_table); (chairs, per_chair)];
                  constant := 0 |}, name)) /\
    (forall a, objective_at p a = 220 * a "Tables" + 80 * a "Chairs") /\
    map (fun nc => Some (snd nc)) (filter (has_sense LpConstraintLE) (constraints p))
      = map resource_row available_resources /\
    map snd (filter (has_sense LpConstraintGE) (constraints p))
      = map floor_row (filter (fun xf => 0 <? snd xf) floors) /\
    filter (has_sense LpConstraintEQ) (constraints p) = [] /\
    keys (constraints p)
      = ["Labor_Constraint"; "Wood_Constraint"; "Machine_Time_Constraint";
         "Minimum_Tables"; "Minimum_Chairs"] /\
    NoDup (keys (constraints p)).
Proof.
  exists model. split; [exact prob_model|].
  split; [reflexivity|].
  split; [exists 220, 80, "Total_Profit"; repeat split|].
  split; [intros a; cbn -[Z.mul Z.add]; lia|].
  repeat split.
  cbn. repeat constructor; cbn; intuition discriminate.
Qed.

(** ** Division by a resource limit *)

Lemma int_truediv_zero (u l : Z) :
  int_truediv u l = Raise ZeroDivisionError <-> l = 0.
Proof.
  unfold int_truediv. destruct (Z.eqb_spec l 0) as [->|Hne].
  - split; reflexivity.
  - split; [|contradiction].
    destruct (SFdiv prec emax (SF_of_Z u) (SF_of_Z l)); discriminate.
Qed.

Lemma int_not_zero_division (v : option float) : int_ v <> Raise ZeroDivisionError.
Proof.
  destruct v as [x|]; cbn; [|discriminate].
  unfold int_of_float. destruct (Prim2SF x); discriminate.
Qed.

(** C8.  No utilization percentage is computed by a division by zero: every
    limit in available_resources (400, 800, 150) is strictly positive, the
    division raises ZeroDivisionError only for a zero divisor, and so neither
    a utilization nor the function as a whole ever ends in that error. *)
Theorem division_never_by_zero :
  (forall r limit, lookup r available_resources = Some limit -> 0 < limit) /\
  (forall u l, int_truediv u l = Raise ZeroDivisionError <-> l = 0) /\
  (forall u r, utilization u r <> Raise ZeroDivisionError) /\
  (forall solve, optimize_manufacturing_resources solve <> Raise ZeroDivisionError).
Proof.
  split; [|split; [|split]].
  - intros r limit Hr.
    destruct (resource_cases r limit Hr) as [[_ ->]|[[_ ->]|[_ ->]]]; lia.
  - exact int_truediv_zero.
  - intros u r. unfold utilization, item.
    destruct (lookup r available_resources) as [l|] eqn:Hr; [|discriminate].
    cbn [bind].
    destruct (int_truediv u l) as [q|e] eqn:Hq; [discriminate|].
    cbn [bind]. intros [= ->]. apply int_truediv_zero in Hq.
    destruct (resource_cases r l Hr) as [[_ ->]|[[_ ->]|[_ ->]]]; discriminate.
  - intros solve. rewrite optimize_steps. cbv zeta.
    destruct (negb _); [discriminate|].
    destruct (int_ (varValue (solve model) "Tables")) as [t|e] eqn:Ht;
      [|cbn [bind]; intros [= ->]; exact (int_not_zero_division _ Ht)].
    destruct (int_ (varValue (solve model) "Chairs")) as [c|e] eqn:Hc;
      [|cbn [bind]; intros [= ->]; exact (int_not_zero_division _ Hc)].
    cbn [bind].
    destruct (int_truediv (8 * t + 5 * c) 400) as [lq|e] eqn:Hl;
      [|cbn [bind]; intros [= ->]; apply int_truediv_zero in Hl; discriminate].
    destruct (int_truediv (30 * t + 10 * c) 800) as [wq|e] eqn:Hw;
      [|cbn [bind]; intros [= ->]; apply int_truediv_zero in Hw; discriminate].
    destruct (int_truediv (4 * t + 2 * c) 150) as [mq|e] eqn:Hm;
      [|cbn [bind]; intros [= ->]; apply int_truediv_zero in Hm; discriminate].
    discriminate.
Qed.

(** ** Further facts about the report and the solver's values *)

(** Within the limits, a resource passes the tolerance test exactly when its
    usage equals its limit. *)
Lemma full_iff_exhausted (u l : Z) (q : float) :
  In l (map snd available_resources) -> 0 <= u <= l ->
  int_truediv u l = Ok q ->
  approximately_full (q * 100) = (u =? l).
Proof.
  intros Hl Hu Hq.
  assert (H : full_when_exhausted l u = true).
  { cbn in Hl. destruct Hl as [<-|[<-|[<-|[]]]].
    - apply (on_range (full_when_exhausted 400) 401 0);
        [vm_compute; reflexivity | cbn; lia].
    - apply (on_range (full_when_exhausted 800) 801 0);
        [vm_compute; reflexivity | cbn; lia].
    - apply (on_range (full_when_exhausted 150) 151 0);
        [vm_compute; reflexivity | cbn; lia]. }
  unfold full_when_exhausted in H. rewrite Hq in H.
  now apply Bool.eqb_prop in H.
Qed.

(** What the script prints after an optimal solve. *)
Lemma report_of_optimum (solve : LpProblem -> Solution) :
  optimal_solve solve ->
  run solve
  = ([[Lit "Optimization Results:"];
      [Lit "Optimal Production: "; Interp (VInt 10); Lit " tables and ";
       Interp (VInt 50); Lit " chairs"];
      [Lit "Optimal Profit: $6200.00"];
      [Lit (newline ++ "Resource Usage:")];
      [Lit "  Labor Hours: 330.00 units (82.50%)"];
      [Lit "  Wood: 800.00 units (100.00%)"];
      [Lit "  Machine Time: 140.00 units (93.33%)"];
      [Lit (newline ++ "Binding Constraints:")];
      [Lit "  Wood"]],
     Ok tt).
Proof.
  intros Hsolve.
  destruct (Hsolve model prob_model) as [Hst [a [Hopt Hrep]]].
  pose proof Hopt as [Hf _].
  apply optimum_model in Hopt as [Ht Hc].
  destruct (optimize_feasible solve a Hst Hf Hrep)
    as (lq & wq & mq & Hl & Hw & Hm & Hrun).
  rewrite Ht, Hc in Hl, Hw, Hm, Hrun.
  vm_compute in Hl, Hw, Hm.
  injection Hl as <-. injection Hw as <-. injection Hm as <-.
  unfold run, module_level. rewrite Hrun.
  vm_compute. reflexivity.
Qed.

(** The integrality of the reported values matters: on a value just short
    of 10 the truncation of line 66 gives 9 tables, while the profit is
    taken from the untruncated values and is no longer an integer. *)
Lemma truncation_of_a_near_integer :
  exists results profit,
    optimize_manufacturing_resources (answer LpStatusOptimal nearly_ten 50)
      = Ok results /\
    at2 results "optimal_production" "tables" = Ok (VInt 9) /\
    getitem results "optimal_profit" = Ok (VFloat profit) /\
    integral profit = None.
Proof.
  eexists _, _. split; [vm_compute; reflexivity|].
  repeat split; vm_compute; reflexivity.
Qed.

(** ** The model's feasible region and optimum *)

(** X1.  The problem of lines 12 to 56 is feasible and bounded: every
    feasible assignment has between 10 and 20 tables and between 20 and 50
    chairs and a profit of at most 6200, and the optimum is unique, 10
    tables and 50 chairs with profit 6200. *)
Theorem model_has_unique_optimum :
  exists p,
    prob = Ok p /\
    (forall a, feasible p a = true ->
       10 <= a "Tables" <= 20 /\ 20 <= a "Chairs" <= 50 /\
       objective_at p a <= 6200) /\
    (forall a, optimum p a <-> a "Tables" = 10 /\ a "Chairs" = 50) /\
    feasible p (make 10 50) = true /\
    objective_at p (make 10 50) = 6200.
Proof.
  exists model. split; [exact prob_model|]. split; [|split; [|split]].
  - intros a Hf. apply feasible_model in Hf.
    unfold min_tables, min_chairs in Hf. cbn -[Z.mul Z.add]. lia.
  - exact optimum_model.
  - reflexivity.
  - reflexivity.
Qed.

(** ** Exceptions of the function *)





Lemma raise_is_silent (solve : LpProblem -> Solution) (e : exn) :
  optimize_manufacturing_resources solve = Raise e ->
  optimize_manufacturing_resources solve = Raise e /\ run solve = ([], Raise e).
Proof.
  intros He. split; [exact He|].
  unfold run, module_level, then_, lift. now rewrite He.
Qed.

Lemma optimal_steps (solve : LpProblem -> Solution) :
  sol_status (solve model) = LpStatusOptimal ->
  optimize_manufacturing_resources solve =
    t <- int_ (varValue (solve model) "Tables");;
    c <- int_ (varValue (solve model) "Chairs");;
    lq <- int_truediv (8 * t + 5 * c) 400;;
    wq <- int_truediv (30 * t + 10 * c) 800;;
    mq <- int_truediv (4 * t + 2 * c) 150;;
    Ok (success t c (profit_of (solve model)) lq wq mq (solve model)).
Proof.
  intros Hst. rewrite optimize_steps. cbv zeta. now rewrite Hst.
Qed.

(** X3.  After a status of Optimal, a variable that the solver left without
    a value makes the function raise TypeError (from [int(None)]), whether
    it is the first variable or, the first being usable, the second; the
    script then ends with that error without having printed anything, since
    line 139 runs before the first print. *)
Theorem unset_value_raises (solve : LpProblem -> Solution) :
  sol_status (solve model) = LpStatusOptimal ->
  varValue (solve model) "Tables" = None \/
  (exists t, int_ (varValue (solve model) "Tables") = Ok t /\
             varValue (solve model) "Chairs" = None) ->
  optimize_manufacturing_resources solve = Raise TypeError /\
  run solve = ([], Raise TypeError).
Proof.
  intros Hst Hv. apply raise_is_silent. rewrite (optimal_steps solve Hst).
  destruct Hv as [Hv|[t [Ht Hv]]].
  - now rewrite Hv.
  - now rewrite Ht, Hv.
Qed.

Lemma unset_value_raises_witness :
  optimize_manufacturing_resources unset = Raise TypeError /\
  run unset = ([], Raise TypeError).
Proof.
  apply (unset_value_raises unset); [reflexivity | left; reflexivity].
Defined.

(** X4.  After a status of Optimal, a NaN reported for the first variable
    makes the function raise ValueError and an infinity OverflowError (from
    [int] of the float); again the script prints nothing. *)
Theorem non_finite_value_raises (solve : LpProblem -> Solution) (x : float)
  (e : exn) :
  sol_status (solve model) = LpStatusOptimal ->
  varValue (solve model) "Tables" = Some x ->
  (Prim2SF x = S754_nan /\ e = ValueError) \/
  (exists s, Prim2SF x = S754_infinity s /\ e = OverflowError) ->
  optimize_manufacturing_resources solve = Raise e /\
  run solve = ([], Raise e).
Proof.
  intros Hst Hv Hx. apply raise_is_silent. rewrite (optimal_steps solve Hst), Hv.
  unfold int_, int_of_float.
  destruct Hx as [[Hx ->]|[s [Hx ->]]]; now rewrite Hx.
Qed.

Lemma non_finite_value_raises_witness :
  optimize_manufacturing_resources (answer LpStatusOptimal nan 50) = Raise ValueError /\
  run (answer LpStatusOptimal nan 50) = ([], Raise ValueError).
Proof.
  apply (non_finite_value_raises (answer LpStatusOptimal nan 50) nan ValueError);
    [reflexivity | reflexivity | left; split; reflexivity].
Defined.

(** ** Fields of a result *)

(** X5.  In every dictionary the function returns, shadow_prices has the
    five constraint names as keys, in the order the constraints were added,
    and maps each name to the dual value the solver left on that constraint
    (None where it left none), unchanged. *)
Theorem shadow_prices_verbatim (solve : LpProblem -> Solution) (results : value) :
  sol_status (solve model) = LpStatusOptimal ->
  optimize_manufacturing_resources solve = Ok results ->
  exists sp,
    getitem results "shadow_prices" = Ok (VDict sp) /\
    keys sp = ["Labor_Constraint"; "Wood_Constraint"; "Machine_Time_Constraint";
               "Minimum_Tables"; "Minimum_Chairs"] /\
    forall n, In n (keys sp) -> lookup n sp = Some (opt_float (pi (solve model) n)).
Proof.
  intros Hst Hrun.
  destruct (optimal_returns solve results Hst Hrun)
    as (t & c & lq & wq & mq & _ & _ & _ & _ & _ & ->).
  eexists. split; [reflexivity|]. split; [reflexivity|].
  intros n Hn. cbn in Hn.
  destruct Hn as [<-|[<-|[<-|[<-|[<-|[]]]]]]; reflexivity.
Qed.

Lemma shadow_prices_verbatim_witness :
  exists sp,
    getitem priced_results "shadow_prices" = Ok (VDict sp) /\
    keys sp = ["Labor_Constraint"; "Wood_Constraint"; "Machine_Time_Constraint";
               "Minimum_Tables"; "Minimum_Chairs"] /\
    forall n, In n (keys sp) -> lookup n sp = Some (opt_float (pi (priced model) n)).
Proof.
  apply (shadow_prices_verbatim priced priced_results); reflexivity.
Defined.

(** X6.  In every dictionary the function returns, optimal_profit is a
    float (never None), computed from the values the solver reported and not
    from the truncated quantities: 0 + tables.value() * 220 +
    chairs.value() * 80 in float arithmetic. *)
Theorem profit_from_reported_values (solve : LpProblem -> Solution)
  (results : value) :
  sol_status (solve model) = LpStatusOptimal ->
  optimize_manufacturing_resources solve = Ok results ->
  exists tv cv,
    varValue (solve model) "Tables" = Some tv /\
    varValue (solve model) "Chairs" = Some cv /\
    getitem results "optimal_profit" = Ok (VFloat (0 + tv * 220 + cv * 80)%float).
Proof.
  intros Hst Hrun.
  destruct (optimal_returns solve results Hst Hrun)
    as (t & c & lq & wq & mq & Ht & Hc & _ & _ & _ & ->).
  destruct (varValue (solve model) "Tables") as [tv|] eqn:Hvt; [|discriminate].
  destruct (varValue (solve model) "Chairs") as [cv|] eqn:Hvc; [|discriminate].
  exists tv, cv. repeat split.
  cbn [success getitem item lookup String.eqb Ascii.eqb Bool.eqb].
  now rewrite (profit_of_values _ _ _ Hvt Hvc).
Qed.

Lemma profit_from_reported_values_witness :
  exists tv cv,
    varValue (answer LpStatusOptimal nearly_ten 50 model) "Tables" = Some tv /\
    varValue (answer LpStatusOptimal nearly_ten 50 model) "Chairs" = Some cv /\
    getitem (match optimize_manufacturing_resources
                     (answer LpStatusOptimal nearly_ten 50) with
             | Ok v => v
             | Raise _ => VNone
             end) "optimal_profit"
    = Ok (VFloat (0 + tv * 220 + cv * 80)%float).
Proof.
  apply (profit_from_reported_values (answer LpStatusOptimal nearly_ten 50));
    vm_compute; reflexivity.
Defined.

(** X7.  Every dictionary the function returns is consistent in itself,
    whatever the solver reported: each usage is the per-unit usages times
    the quantities stored under optimal_production, and each utilization is
    the float quotient of that usage by the limit, times 100. *)
Theorem result_consistent (solve : LpProblem -> Solution) (results : value) :
  sol_status (solve model) = LpStatusOptimal ->
  optimize_manufacturing_resources solve = Ok results ->
  exists t c,
    getitem results "optimal_production"
      = Ok (VDict [("tables", VInt t); ("chairs", VInt c)]) /\
    int_ (varValue (solve model) "Tables") = Ok t /\
    int_ (varValue (solve model) "Chairs") = Ok c /\
    forall r limit,
      lookup r available_resources = Some limit ->
      exists per_table per_chair q,
        lookup r table_data = Some per_table /\
        lookup r chair_data = Some per_chair /\
        at2 results "resource_usage" r = Ok (VInt (per_table * t + per_chair * c)) /\
        int_truediv (per_table * t + per_chair * c) limit = Ok q /\
        at2 results "resource_utilization" r = Ok (VFloat (q * 100)).
Proof.
  intros Hst Hrun.
  destruct (optimal_returns solve results Hst Hrun)
    as (t & c & lq & wq & mq & Ht & Hc & Hl & Hw & Hm & ->).
  exists t, c. split; [reflexivity|]. split; [exact Ht|]. split; [exact Hc|].
  intros r limit Hr.
  destruct (resource_cases r limit Hr) as [[-> ->]|[[-> ->]|[-> ->]]].
  - exists 8, 5, lq. repeat split; try reflexivity; exact Hl.
  - exists 30, 10, wq. repeat split; try reflexivity; exact Hw.
  - exists 4, 2, mq. repeat split; try reflexivity; exact Hm.
Qed.

Lemma result_consistent_witness :
  exists t c,
    getitem canonical_results "optimal_production"
      = Ok (VDict [("tables", VInt t); ("chairs", VInt c)]) /\
    int_ (varValue (answer LpStatusOptimal 10 50 model) "Tables") = Ok t /\
    int_ (varValue (answer LpStatusOptimal 10 50 model) "Chairs") = Ok c /\
    forall r limit,
      lookup r available_resources = Some limit ->
      exists per_table per_chair q,
        lookup r table_data = Some per_table /\
        lookup r chair_data = Some per_chair /\
        at2 canonical_results "resource_usage" r
          = Ok (VInt (per_table * t + per_chair * c)) /\
        int_truediv (per_table * t + per_chair * c) limit = Ok q /\
        at2 canonical_results "resource_utilization" r = Ok (VFloat (q * 100)).
Proof.
  apply (result_consistent (answer LpStatusOptimal 10 50) canonical_results);
    reflexivity.
Defined.

(** ** Results of feasible solves *)

Lemma percent_within (u l : Z) (q : float) :
  In l (map snd available_resources) -> 0 <= u <= l ->
  int_truediv u l = Ok q ->
  (0 <=? q * 100)%float = true /\ (q * 100 <=? 100)%float = true.
Proof.
  intros Hl Hu Hq.
  assert (H : percent_in_range l u = true).
  { cbn in Hl. destruct Hl as [<-|[<-|[<-|[]]]].
    - apply (on_range (percent_in_range 400) 401 0);
        [vm_compute; reflexivity | cbn; lia].
    - apply (on_range (percent_in_range 800) 801 0);
        [vm_compute; reflexivity | cbn; lia].
    - apply (on_range (percent_in_range 150) 151 0);
        [vm_compute; reflexivity | cbn; lia]. }
  unfold percent_in_range in H. rewrite Hq in H.
  now apply andb_true_iff in H.
Qed.

(** X8.  After a solve that ends Optimal with feasible integers, every
    utilization percentage lies between 0 and 100 (as floats, bounds
    included): no resource is reported as used beyond its limit. *)
Theorem utilization_within_bounds (solve : LpProblem -> Solution) :
  feasible_solve solve ->
  exists results,
    optimize_manufacturing_resources solve = Ok results /\
    forall r, In r (keys available_resources) ->
      exists pct,
        at2 results "resource_utilization" r = Ok (VFloat pct) /\
        (0 <=? pct)%float = true /\ (pct <=? 100)%float = true.
Proof.
  intros Hsolve.
  destruct (feasible_solve_runs solve Hsolve)
    as (a & lq & wq & mq & Hf & _ & Hl & Hw & Hm & Hrun).
  apply feasible_model in Hf. unfold min_tables, min_chairs in Hf.
  eexists. split; [exact Hrun|].
  intros r Hr. destruct (resource_keys r Hr) as [->|[->| ->]].
  - exists (lq * 100)%float. split; [reflexivity|].
    apply (percent_within (8 * a "Tables" + 5 * a "Chairs") 400 lq); [cbn; tauto | lia | exact Hl].
  - exists (wq * 100)%float. split; [reflexivity|].
    apply (percent_within (30 * a "Tables" + 10 * a "Chairs") 800 wq); [cbn; tauto | lia | exact Hw].
  - exists (mq * 100)%float. split; [reflexivity|].
    apply (percent_within (4 * a "Tables" + 2 * a "Chairs") 150 mq); [cbn; tauto | lia | exact Hm].
Qed.

Lemma utilization_within_bounds_witness :
  exists results,
    optimize_manufacturing_resources
      (answer LpStatusOptimal (float_of_Z 12) (float_of_Z 40)) = Ok results /\
    forall r, In r (keys available_resources) ->
      exists pct,
        at2 results "resource_utilization" r = Ok (VFloat pct) /\
        (0 <=? pct)%float = true /\ (pct <=? 100)%float = true.
Proof.
  apply (utilization_within_bounds
           (answer LpStatusOptimal (float_of_Z 12) (float_of_Z 40))).
  apply answer_feasible. reflexivity.
Defined.

(** X9.  After a solve that ends Optimal with feasible integers, the
    binding constraints are ['wood'] when the wood is used up (30 * tables
    + 10 * chairs = 800) and empty otherwise: under the floors of 10 tables
    and 20 chairs, labor hours and machine time can never be exhausted. *)
Theorem only_wood_can_bind (solve : LpProblem -> Solution) :
  feasible_solve solve ->
  exists results a,
    reports (solve model) model a /\
    optimize_manufacturing_resources solve = Ok results /\
    8 * a "Tables" + 5 * a "Chairs" < 400 /\
    4 * a "Tables" + 2 * a "Chairs" < 150 /\
    getitem results "binding_constraints"
    = Ok (VList (if 30 * a "Tables" + 10 * a "Chairs" =? 800
                 then [VStr "wood"] else [])).
Proof.
  intros Hsolve.
  destruct (feasible_solve_runs solve Hsolve)
    as (a & lq & wq & mq & Hf & Hrep & Hl & Hw & Hm & Hrun).
  apply feasible_model in Hf. unfold min_tables, min_chairs in Hf.
  eexists _, a. split; [exact Hrep|]. split; [exact Hrun|].
  split; [lia|]. split; [lia|].
  rewrite binding_of_success. cbn [filter snd].
  rewrite (full_iff_exhausted (8 * a "Tables" + 5 * a "Chairs") 400 lq);
    [|cbn; tauto | lia | exact Hl].
  rewrite (full_iff_exhausted (30 * a "Tables" + 10 * a "Chairs") 800 wq);
    [|cbn; tauto | lia | exact Hw].
  rewrite (full_iff_exhausted (4 * a "Tables" + 2 * a "Chairs") 150 mq);
    [|cbn; tauto | lia | exact Hm].
  replace (8 * a "Tables" + 5 * a "Chairs" =? 400) with false
    by (symmetry; apply Z.eqb_neq; lia).
  replace (4 * a "Tables" + 2 * a "Chairs" =? 150) with false
    by (symmetry; apply Z.eqb_neq; lia).
  destruct (30 * a "Tables" + 10 * a "Chairs" =? 800); reflexivity.
Qed.

Lemma only_wood_can_bind_witness :
  exists results a,
    reports (answer LpStatusOptimal (float_of_Z 12) (float_of_Z 40) model) model a /\
    optimize_manufacturing_resources
      (answer LpStatusOptimal (float_of_Z 12) (float_of_Z 40)) = Ok results /\
    8 * a "Tables" + 5 * a "Chairs" < 400 /\
    4 * a "Tables" + 2 * a "Chairs" < 150 /\
    getitem results "binding_constraints"
    = Ok (VList (if 30 * a "Tables" + 10 * a "Chairs" =? 800
                 then [VStr "wood"] else [])).
Proof.
  apply (only_wood_can_bind
           (answer LpStatusOptimal (float_of_Z 12) (float_of_Z 40))).
  apply answer_feasible. reflexivity.
Defined.

(** ** Truncation of the reported values *)

Lemma shift_brackets (M e : Z) :
  0 < M ->
  (inject_Z (Z.shiftl M e) <= inject_Z M * Qpower 2 e)%Q /\
  (inject_Z M * Qpower 2 e < inject_Z (Z.shiftl M e) + 1)%Q.
Proof.
  intros HM. destruct (Z.le_gt_cases 0 e) as [He|He].
  - rewrite Z.shiftl_mul_pow2 by exact He.
    assert (Heq : (inject_Z M * Qpower 2 e == inject_Z (M * 2 ^ e))%Q).
    { rewrite inject_Z_mult. rewrite (Zpower_Qpower 2 e He). reflexivity. }
    rewrite Heq. split.
    + apply Qle_refl.
    + rewrite <- (inject_Z_plus _ 1). rewrite <- Zlt_Qlt. lia.
  - rewrite Z.shiftl_div_pow2 by lia.
    set (D := 2 ^ (- e)).
    assert (HD : 0 < D) by (apply Z.pow_pos_nonneg; lia).
    assert (Hpow : (Qpower 2 e == / inject_Z D)%Q).
    { replace e with (- - e) at 1 by lia. rewrite Qpower_opp.
      unfold D. rewrite (Zpower_Qpower 2 (- e)) by lia. reflexivity. }
    rewrite Hpow.
    assert (HDq : (0 < inject_Z D)%Q)
      by (change (inject_Z 0 < inject_Z D)%Q; rewrite <- Zlt_Qlt; exact HD).
    split.
    + apply Qle_shift_div_l; [exact HDq|].
      rewrite <- inject_Z_mult, <- Zle_Qle.
      rewrite Z.mul_comm. apply Z.mul_div_le. exact HD.
    + apply Qlt_shift_div_r; [exact HDq|].
      rewrite <- (inject_Z_plus _ 1), <- inject_Z_mult, <- Zlt_Qlt.
      pose proof (Z.mul_succ_div_gt M D HD). lia.
Qed.

Lemma int_of_float_truncates (x : float) (t : Z) :
  int_of_float x = Ok t -> exists q, to_Q x = Some q /\ truncation_of q t.
Proof.
  unfold int_of_float, to_Q.
  destruct (Prim2SF x) as [s|s| |s m e]; try discriminate.
  - intros [= <-]. exists 0%Q. split; [reflexivity|].
    left. repeat split; unfold Qle, Qlt; cbn; lia.
  - intros [= <-]. eexists. split; [reflexivity|].
    destruct (shift_brackets (Z.pos m) e) as [Hlo Hhi]; [lia|].
    assert (Hk : (0 <= inject_Z (Z.shiftl (Z.pos m) e))%Q).
    { change (inject_Z 0 <= inject_Z (Z.shiftl (Z.pos m) e))%Q.
      rewrite <- Zle_Qle. apply Z.shiftl_nonneg. lia. }
    set (k := Z.shiftl (Z.pos m) e) in *.
    set (P := Qpower 2 e) in *.
    destruct s.
    + right. change (Z.neg m) with (- Z.pos m). rewrite !inject_Z_opp.
      set (ik := inject_Z k) in *. set (im := inject_Z (Z.pos m)) in *.
      repeat split; lra.
    + left. repeat split; lra.
Qed.

(** X10.  In every dictionary the function returns, each production
    quantity is the value the solver reported for its variable truncated
    towards zero (not rounded): it differs from the exact value of the float
    by less than one and is never larger in magnitude. *)
Theorem quantities_are_truncations (solve : LpProblem -> Solution)
  (results : value) :
  sol_status (solve model) = LpStatusOptimal ->
  optimize_manufacturing_resources solve = Ok results ->
  exists t c tv cv qt qc,
    getitem results "optimal_production"
      = Ok (VDict [("tables", VInt t); ("chairs", VInt c)]) /\
    varValue (solve model) "Tables" = Some tv /\
    varValue (solve model) "Chairs" = Some cv /\
    to_Q tv = Some qt /\ to_Q cv = Some qc /\
    truncation_of qt t /\ truncation_of qc c.
Proof.
  intros Hst Hrun.
  destruct (optimal_returns solve results Hst Hrun)
    as (t & c & lq & wq & mq & Ht & Hc & _ & _ & _ & ->).
  destruct (varValue (solve model) "Tables") as [tv|]; [|discriminate].
  destruct (varValue (solve model) "Chairs") as [cv|]; [|discriminate].
  cbn [int_] in Ht, Hc.
  destruct (int_of_float_truncates tv t Ht) as (qt & Hqt & Htt).
  destruct (int_of_float_truncates cv c Hc) as (qc & Hqc & Htc).
  exists t, c, tv, cv, qt, qc. repeat split; assumption.
Qed.

Lemma quantities_are_truncations_witness :
  exists t c tv cv qt qc,
    getitem (match optimize_manufacturing_resources
                     (answer LpStatusOptimal nearly_ten 50) with
             | Ok v => v
             | Raise _ => VNone
             end) "optimal_production"
      = Ok (VDict [("tables", VInt t); ("chairs", VInt c)]) /\
    varValue (answer LpStatusOptimal nearly_ten 50 model) "Tables" = Some tv /\
    varValue (answer LpStatusOptimal nearly_ten 50 model) "Chairs" = Some cv /\
    to_Q tv = Some qt /\ to_Q cv = Some qc /\
    truncation_of qt t /\ truncation_of qc c.
Proof.
  apply (quantities_are_truncations (answer LpStatusOptimal nearly_ten 50));
    vm_compute; reflexivity.
Defined.

(** ** The report printed after a feasible solve *)

Lemma format_amount (u : Z) :
  0 <= u <= 800 -> format_2f (VInt u) = Ok (digits u ++ ".00")%string.
Proof.
  intros Hu.
  assert (H : prints_amount u = true)
    by (apply (on_range prints_amount 801 0); [vm_compute; reflexivity | cbn; lia]).
  unfold prints_amount in H.
  destruct (format_2f (VInt u)) as [s|]; [|discriminate].
  apply String.eqb_eq in H. now subst.
Qed.

Lemma format_profit (t c : Z) :
  0 <= t <= 30 -> 0 <= c <= 80 ->
  format_2f (VFloat (profit_float (float_of_Z t) (float_of_Z c)))
  = Ok (digits (220 * t + 80 * c) ++ ".00")%string.
Proof.
  intros Ht Hc. cbn [format_2f]. f_equal. apply String.eqb_eq.
  change (prints_profit t c = true).
  apply (on_range (fun c => prints_profit t c) 81 0); [|cbn; lia].
  apply (on_range (fun t => forallb (fun c => prints_profit t c) (upto 81 0)) 31 0);
    [vm_compute; reflexivity | cbn; lia].
Qed.

Lemma format_2f_float (x : float) : format_2f (VFloat x) = Ok (format_float x).
Proof. reflexivity. Qed.

(** X11.  After a solve that ends Optimal with feasible integers no
    subscript or format of the script fails, in [visualize_results] either
    (its charting calls are external and not part of the model), and the
    script prints nine lines: the heading, the quantities, the profit
    220 * tables + 80 * chairs with two zero decimals, the three usages with
    two zero decimals and their percentages, and under "Binding
    Constraints" either "Wood", when the wood is used up, or "None". *)
Theorem report_after_feasible_solve (solve : LpProblem -> Solution) :
  feasible_solve solve ->
  exists a labor_pct wood_pct machine_pct,
    reports (solve model) model a /\
    let t := a "Tables" in
    let c := a "Chairs" in
    run solve
    = ([[Lit "Optimization Results:"];
        [Lit "Optimal Production: "; Interp (VInt t); Lit " tables and ";
         Interp (VInt c); Lit " chairs"];
        [Lit ("Optimal Profit: $" ++ (digits (220 * t + 80 * c) ++ ".00"))];
        [Lit (newline ++ "Resource Usage:")];
        [Lit ("  " ++ "Labor Hours" ++ ": " ++ (digits (8 * t + 5 * c) ++ ".00")
              ++ " units (" ++ labor_pct ++ "%)")];
        [Lit ("  " ++ "Wood" ++ ": " ++ (digits (30 * t + 10 * c) ++ ".00")
              ++ " units (" ++ wood_pct ++ "%)")];
        [Lit ("  " ++ "Machine Time" ++ ": " ++ (digits (4 * t + 2 * c) ++ ".00")
              ++ " units (" ++ machine_pct ++ "%)")];
        [Lit (newline ++ "Binding Constraints:")];
        [Lit (if 30 * t + 10 * c =? 800 then "  " ++ "Wood" else "  None")]],
       Ok tt).
Proof.
  intros Hsolve.
  destruct (feasible_solve_runs solve Hsolve)
    as (a & lq & wq & mq & Hf & Hrep & Hl & Hw & Hm & Hrun).
  apply feasible_model in Hf. unfold min_tables, min_chairs in Hf.
  assert (Hbl : approximately_full (lq * 100) = false).
  { rewrite (full_iff_exhausted (8 * a "Tables" + 5 * a "Chairs") 400 lq);
      [apply Z.eqb_neq; lia | cbn; tauto | lia | exact Hl]. }
  assert (Hbm : approximately_full (mq * 100) = false).
  { rewrite (full_iff_exhausted (4 * a "Tables" + 2 * a "Chairs") 150 mq);
      [apply Z.eqb_neq; lia | cbn; tauto | lia | exact Hm]. }
  assert (Hbw : approximately_full (wq * 100)
                = (30 * a "Tables" + 10 * a "Chairs" =? 800)).
  { apply (full_iff_exhausted _ 800 wq); [cbn; tauto | lia | exact Hw]. }
  exists a, (format_float (lq * 100)), (format_float (wq * 100)),
         (format_float (mq * 100)).
  split; [exact Hrep|]. intros t c.
  unfold run, module_level. rewrite Hrun. unfold success.
  cbn [filter snd]. rewrite Hbl, Hbm, Hbw. fold t c. fold t c in Hf.
  pose proof (format_profit t c ltac:(lia) ltac:(lia)) as Hp.
  pose proof (format_amount (8 * t + 5 * c) ltac:(lia)) as Hfl.
  pose proof (format_amount (30 * t + 10 * c) ltac:(lia)) as Hfw.
  pose proof (format_amount (4 * t + 2 * c) ltac:(lia)) as Hfm.
  cbv -[format_2f format_float digits Z.mul Z.add String.append PrimFloat.mul
        profit_float float_of_Z Z.eqb newline t c].
  rewrite Hp, Hfl, Hfw, Hfm, !format_2f_float.
  destruct (30 * t + 10 * c =? 800); reflexivity.
Qed.

Lemma report_after_feasible_solve_witness :
  exists a labor_pct wood_pct machine_pct,
    reports (answer LpStatusOptimal (float_of_Z 12) (float_of_Z 40) model) model a /\
    let t := a "Tables" in
    let c := a "Chairs" in
    run (answer LpStatusOptimal (float_of_Z 12) (float_of_Z 40))
    = ([[Lit "Optimization Results:"];
        [Lit "Optimal Production: "; Interp (VInt t); Lit " tables and ";
         Interp (VInt c); Lit " chairs"];
        [Lit ("Optimal Profit: $" ++ (digits (220 * t + 80 * c) ++ ".00"))];
        [Lit (newline ++ "Resource Usage:")];
        [Lit ("  " ++ "Labor Hours" ++ ": " ++ (digits (8 * t + 5 * c) ++ ".00")
              ++ " units (" ++ labor_pct ++ "%)")];
        [Lit ("  " ++ "Wood" ++ ": " ++ (digits (30 * t + 10 * c) ++ ".00")
              ++ " units (" ++ wood_pct ++ "%)")];
        [Lit ("  " ++ "Machine Time" ++ ": " ++ (digits (4 * t + 2 * c) ++ ".00")
              ++ " units (" ++ machine_pct ++ "%)")];
        [Lit (newline ++ "Binding Constraints:")];
        [Lit (if 30 * t + 10 * c =? 800 then "  " ++ "Wood" else "  None")]],
       Ok tt).
Proof.
  apply (report_after_feasible_solve
           (answer LpStatusOptimal (float_of_Z 12) (float_of_Z 40))).
  apply answer_feasible. reflexivity.
Defined.

(** ** Bounds on the reported profit *)

(** X12.  After a solve that ends Optimal with feasible integers the
    reported profit is an integer between 3800 (the floors alone) and 6200,
    and it is 6200 only for 10 tables and 50 chairs. *)
Theorem profit_within_bounds (solve : LpProblem -> Solution) :
  feasible_solve solve ->
  exists results t c profit n,
    optimize_manufacturing_resources solve = Ok results /\
    getitem results "optimal_production"
      = Ok (VDict [("tables", VInt t); ("chairs", VInt c)]) /\
    getitem results "optimal_profit" = Ok (VFloat profit) /\
    integral profit = Some n /\
    3800 <= n <= 6200 /\
    (n = 6200 <-> t = 10 /\ c = 50).
Proof.
  intros Hsolve.
  destruct (feasible_solve_runs solve Hsolve)
    as (a & lq & wq & mq & Hf & _ & _ & _ & _ & Hrun).
  apply feasible_model in Hf. unfold min_tables, min_chairs in Hf.
  eexists _, (a "Tables"), (a "Chairs"), _, (220 * a "Tables" + 80 * a "Chairs").
  split; [exact Hrun|]. split; [reflexivity|]. split; [reflexivity|].
  split; [apply profit_exact; lia|]. split; lia.
Qed.

Lemma profit_within_bounds_witness :
  exists results t c profit n,
    optimize_manufacturing_resources
      (answer LpStatusOptimal (float_of_Z 12) (float_of_Z 40)) = Ok results /\
    getitem results "optimal_production"
      = Ok (VDict [("tables", VInt t); ("chairs", VInt c)]) /\
    getitem results "optimal_profit" = Ok (VFloat profit) /\
    integral profit = Some n /\
    3800 <= n <= 6200 /\
    (n = 6200 <-> t = 10 /\ c = 50).
Proof.
  apply (profit_within_bounds
           (answer LpStatusOptimal (float_of_Z 12) (float_of_Z 40))).
  apply answer_feasible. reflexivity.
Defined.
